(** * The social graph and feed engine, verified against its specification

    A shallow embedding of [app/models/social.py] and
    [app/services/social_service.py]: the rows of the four tables, the
    SQLAlchemy session the service talks to (as a state and exception
    monad), each method of [SocialService], and the properties the
    specification states about them. *)

From Stdlib Require Import ZArith List String Bool Lia Permutation Sorted.
Import ListNotations.
Local Open Scope Z_scope.

(** ** app/models/social.py *)

Inductive ConnectionStatus : Set := PENDING | ACCEPTED | DECLINED.

Definition status_eqb (a b : ConnectionStatus) : bool :=
  match a, b with
  | PENDING, PENDING | ACCEPTED, ACCEPTED | DECLINED, DECLINED => true
  | _, _ => false
  end.

(** Identifiers are Python [int]s and timestamps are [datetime]s, both
    rendered as [Z] (a timestamp is the reading of the database clock). *)

Module Connection.
Record t : Set := mk {
  id : Z;
  requester_id : Z;
  addressee_id : Z;
  status : ConnectionStatus;
  message : option string;
  created_at : Z;
  updated_at : Z
}.
End Connection.

Module Post.
Record t : Set := mk {
  id : Z;
  user_id : Z;
  content : string;
  image_url : option string;
  created_at : Z;
  updated_at : Z
}.
End Post.

Module Comment.
Record t : Set := mk {
  id : Z;
  post_id : Z;
  user_id : Z;
  content : string;
  created_at : Z;
  updated_at : Z
}.
End Comment.

Module Like.
Record t : Set := mk {
  id : Z;
  post_id : Z;
  user_id : Z;
  created_at : Z
}.
End Like.

(** ** app/schemas/social.py: the validated request bodies *)

Module ConnectionCreate.
Record t : Set := mk { addressee_id : Z; message : option string }.
End ConnectionCreate.

Module PostCreate.
Record t : Set := mk { content : string }.
End PostCreate.

Module CommentCreate.
Record t : Set := mk { content : string }.
End CommentCreate.

(** ** The database behind the session

    Each table is the list of its rows in scan order (the order in which a
    SELECT without ORDER BY yields them: insertion order, which is rowid
    order on the SQLite backend [config.py] configures by default).  Of the
    [users] table only the primary keys matter here. *)

Record Tables : Set := mkTables {
  users : list Z;
  connections : list Connection.t;
  posts : list Post.t;
  comments : list Comment.t;
  likes : list Like.t
}.

(** What the unit of work holds between [add]/[delete]/attribute
    assignment and [commit]. *)
Inductive Pending : Set :=
| InsertConnection (requester_id addressee_id : Z) (message : option string)
                   (status : ConnectionStatus)
| UpdateConnectionStatus (id : Z) (status : ConnectionStatus)
| InsertPost (user_id : Z) (content : string)
| InsertComment (user_id post_id : Z) (content : string)
| InsertLike (user_id post_id : Z)
| DeleteLike (id : Z).

Inductive Exception : Set :=
| OperationalError      (* the backend failed the round trip *)
| IntegrityError        (* a constraint rejected the flush *)
| MultipleResultsFound  (* scalar_one_or_none saw two rows *)
| InvalidRequestError.  (* refresh of a row that is not there *)

(** The lines the service writes to its logger, one constructor per
    f-string of the source, carrying the values it interpolates. *)
Inductive Level : Set := WARNING | INFO | ERROR.

Inductive Message : Set :=
| connection_already_exists (requester_id addressee_id : Z)
| connection_request_sent (requester_id addressee_id : Z)
| error_sending_connection_request (e : Exception)
| invalid_connection_response_attempt (user_id : Z)
| connection_responded (connection_id : Z) (accept : bool) (user_id : Z)
| error_responding_to_connection (e : Exception)
| error_getting_connections (user_id : Z) (e : Exception)
| error_getting_pending_requests (user_id : Z) (e : Exception)
| post_created (user_id : Z)
| error_creating_post (user_id : Z) (e : Exception)
| error_getting_posts (user_id : Z) (e : Exception)
| error_getting_feed (user_id : Z) (e : Exception)
| post_unliked (post_id user_id : Z)
| post_liked (post_id user_id : Z)
| error_liking_post (post_id user_id : Z) (e : Exception)
| comment_added (post_id user_id : Z)
| error_commenting (post_id user_id : Z) (e : Exception).

(** The world a method runs in.
    - [tables]: the committed rows;
    - [pending]: the uncommitted work of the session;
    - [foreign_keys]: whether the backend enforces FOREIGN KEY clauses
      (SQLite does not unless asked to, and [database.py] does not ask);
    - [clock]: what [func.now()] reads;
    - [faults]: the fate of the coming round trips to the backend, one entry
      per call on [self.db] that reaches it; [true] makes that call raise,
      and an exhausted list means no further failure;
    - [log]: the records written so far, most recent first. *)
Record Session : Set := mkSession {
  tables : Tables;
  pending : list Pending;
  foreign_keys : bool;
  clock : Z;
  faults : list bool;
  log : list (Level * Message)
}.

Definition set_tables (t : Tables) (s : Session) : Session :=
  mkSession t (pending s) (foreign_keys s) (clock s) (faults s) (log s).

Definition set_pending (p : list Pending) (s : Session) : Session :=
  mkSession (tables s) p (foreign_keys s) (clock s) (faults s) (log s).

Definition set_faults (f : list bool) (s : Session) : Session :=
  mkSession (tables s) (pending s) (foreign_keys s) (clock s) f (log s).

Definition set_log (l : list (Level * Message)) (s : Session) : Session :=
  mkSession (tables s) (pending s) (foreign_keys s) (clock s) (faults s) l.

(** ** Python control flow: state that survives an exception *)

Inductive Outcome (A : Type) : Type :=
| Ok (a : A)
| Raise (e : Exception).
Arguments Ok {A} a.
Arguments Raise {A} e.

Definition M (A : Type) : Type := Session -> Outcome A * Session.

Definition ret {A} (a : A) : M A := fun s => (Ok a, s).

Definition raise {A} (e : Exception) : M A := fun s => (Raise e, s).

Definition bind {A B} (m : M A) (k : A -> M B) : M B :=
  fun s =>
    match m s with
    | (Ok a, s') => k a s'
    | (Raise e, s') => (Raise e, s')
    end.

(** [try: body except Exception as e: handler e] *)
Definition try_except {A} (body : M A) (handler : Exception -> M A) : M A :=
  fun s =>
    match body s with
    | (Ok a, s') => (Ok a, s')
    | (Raise e, s') => handler e s'
    end.

Declare Scope py_scope.
Delimit Scope py_scope with py.
Notation "x <- m ;; k" := (bind m (fun x => k))
  (at level 61, m at next level, right associativity) : py_scope.
Notation "m ;; k" := (bind m (fun _ => k))
  (at level 61, right associativity) : py_scope.
Local Open Scope py_scope.

(** Modelled from the spec: [app/core/logging.py], which provides
    [get_logger], is not among the sources.  The specification speaks of the
    service catching, logging and returning [None]; the logger is taken to
    record the line and do nothing else: it does not raise and does not
    touch the database. *)
Definition logger (lvl : Level) (msg : Message) : M unit :=
  fun s => (Ok tt, set_log ((lvl, msg) :: log s) s).

(** ** The session primitives *)

(** A round trip to the backend: it consumes the head of the fault
    schedule and raises when that head is [true]. *)
Definition round_trip : M unit :=
  fun s =>
    (if hd false (faults s) then Raise OperationalError else Ok tt,
     set_faults (tl (faults s)) s).

(** [self.db.execute(stmt)] for a SELECT [q], then [.scalars()]: the rows.
    Every method of the service queries before it stages anything, so a
    session that enters a method with nothing pending has nothing to
    autoflush when it queries, and the query reads the committed tables. *)
Definition execute {A} (q : Tables -> list A) : M (list A) :=
  round_trip ;; (fun s => (Ok (q (tables s)), s)).

Definition scalar_one_or_none {A} (rows : list A) : M (option A) :=
  match rows with
  | [] => ret None
  | [x] => ret (Some x)
  | _ :: _ :: _ => raise MultipleResultsFound
  end.

Definition all {A} (rows : list A) : M (list A) := ret rows.

(** [self.db.get(Connection, connection_id)] *)
Definition get_connection (connection_id : Z) : M (option Connection.t) :=
  round_trip ;;
  (fun s => (Ok (find (fun c => Connection.id c =? connection_id)
                      (connections (tables s))), s)).

(** [self.db.add(obj)], [self.db.delete(obj)] and the assignment to a
    mapped attribute only record work for the next flush. *)
Definition stage (op : Pending) : M unit :=
  fun s => (Ok tt, set_pending (pending s ++ [op]) s).

(** [self.db.rollback()] throws the unit of work away.  It is taken to
    succeed: the fault schedule does not reach it, so a rollback that
    itself raises inside a handler is not part of this model, and what is
    proved of a writing method after a failure holds for a rollback that
    goes through. *)
Definition rollback : M unit :=
  fun s => (Ok tt, set_pending [] s).

(** *** Flushing the unit of work *)

(** The key of a new row.  The tables are declared with a plain integer
    primary key, for which SQLite hands out one more than the largest key
    in use, and 1 in an empty table. *)
Definition new_id (ids : list Z) : Z :=
  match ids with
  | [] => 1
  | x :: r => fold_left Z.max r x + 1
  end.

Definition mem (x : Z) (l : list Z) : bool := existsb (Z.eqb x) l.

(** A FOREIGN KEY clause holds when it is not enforced or the referenced
    row exists. *)
Definition references (fk : bool) (x : Z) (keys : list Z) : bool :=
  negb fk || mem x keys.

(** The UPDATE of a connection's status.  The unit of work emits it only
    for a row whose status really changes, and [onupdate=func.now()] then
    stamps [updated_at]. *)
Definition update_status (now id : Z) (st : ConnectionStatus)
    (c : Connection.t) : Connection.t :=
  if Connection.id c =? id then
    if status_eqb (Connection.status c) st then c
    else Connection.mk (Connection.id c) (Connection.requester_id c)
           (Connection.addressee_id c) st (Connection.message c)
           (Connection.created_at c) now
  else c.

(** One INSERT, UPDATE or DELETE against the tables: the new tables and the
    primary key given to an inserted row, or the constraint violation. *)
Definition apply_pending (fk : bool) (now : Z) (op : Pending) (t : Tables)
    : Exception + Tables * list Z :=
  match op with
  | InsertConnection requester addressee msg st =>
      if references fk requester (users t) && references fk addressee (users t)
      then
        let k := new_id (map Connection.id (connections t)) in
        inr (mkTables (users t)
               (connections t ++
                  [Connection.mk k requester addressee st msg now now])
               (posts t) (comments t) (likes t), [k])
      else inl IntegrityError
  | UpdateConnectionStatus id st =>
      inr (mkTables (users t) (map (update_status now id st) (connections t))
             (posts t) (comments t) (likes t), [])
  | InsertPost user text =>
      if references fk user (users t) then
        let k := new_id (map Post.id (posts t)) in
        inr (mkTables (users t) (connections t)
               (posts t ++ [Post.mk k user text None now now])
               (comments t) (likes t), [k])
      else inl IntegrityError
  | InsertComment user post text =>
      if references fk post (map Post.id (posts t))
         && references fk user (users t)
      then
        let k := new_id (map Comment.id (comments t)) in
        inr (mkTables (users t) (connections t) (posts t)
               (comments t ++ [Comment.mk k post user text now now])
               (likes t), [k])
      else inl IntegrityError
  | InsertLike user post =>
      if references fk post (map Post.id (posts t))
         && references fk user (users t)
      then
        let k := new_id (map Like.id (likes t)) in
        inr (mkTables (users t) (connections t) (posts t) (comments t)
               (likes t ++ [Like.mk k post user now]), [k])
      else inl IntegrityError
  | DeleteLike id =>
      inr (mkTables (users t) (connections t) (posts t) (comments t)
             (filter (fun l => negb (Like.id l =? id)) (likes t)), [])
  end.

Fixpoint flush (fk : bool) (now : Z) (ops : list Pending) (t : Tables)
    : Exception + Tables * list Z :=
  match ops with
  | [] => inr (t, [])
  | op :: rest =>
      match apply_pending fk now op t with
      | inl e => inl e
      | inr (t', k) =>
          match flush fk now rest t' with
          | inl e => inl e
          | inr (t'', ks) => inr (t'', k ++ ks)
          end
      end
  end.

(** [self.db.commit()]: flush the pending work and make it durable, all of
    it or none.  Python fills in the primary key of each flushed object in
    place; here [commit] hands the new keys back, in flush order. *)
Definition commit : M (list Z) :=
  round_trip ;;
  (fun s =>
     match flush (foreign_keys s) (clock s) (pending s) (tables s) with
     | inl e => (Raise e, s)
     | inr (t, keys) => (Ok keys, set_pending [] (set_tables t s))
     end).

(** [self.db.refresh(obj)]: read the row of [obj] back by primary key. *)
Definition refresh {A} (table : Tables -> list A) (key : A -> Z) (k : Z)
    : M A :=
  round_trip ;;
  (fun s =>
     match find (fun r => key r =? k) (table (tables s)) with
     | Some r => (Ok r, s)
     | None => (Raise InvalidRequestError, s)
     end).

(** *** The SQL the service composes *)

(** [ORDER BY key DESC].  The queries of the service that sort also carry
    a LIMIT, and for such a query SQLite breaks ties by the sequence in which
    the scan produced the rows: rows of equal key stay in scan order. *)
Fixpoint insert_desc {A} (key : A -> Z) (x : A) (l : list A) : list A :=
  match l with
  | [] => [x]
  | y :: r => if key y <=? key x then x :: y :: r
              else y :: insert_desc key x r
  end.

Definition order_by_desc {A} (key : A -> Z) (l : list A) : list A :=
  fold_right (insert_desc key) [] l.

(** [OFFSET n] and [LIMIT n] as SQLite reads them: a negative offset skips
    nothing and a negative limit is no limit. *)
Definition offset {A} (n : Z) (l : list A) : list A := skipn (Z.to_nat n) l.

Definition limit {A} (n : Z) (l : list A) : list A :=
  if n <? 0 then l else firstn (Z.to_nat n) l.

(** ** app/models/social.py: Post.like_count

    [len(self.likes)], the relationship being the rows of [likes] whose
    [post_id] is the post's key. *)
Definition Post_likes (t : Tables) (p : Post.t) : list Like.t :=
  filter (fun l => Like.post_id l =? Post.id p) (likes t).

Definition like_count (t : Tables) (p : Post.t) : Z :=
  Z.of_nat (List.length (Post_likes t p)).

Definition Post_comments (t : Tables) (p : Post.t) : list Comment.t :=
  filter (fun c => Comment.post_id c =? Post.id p) (comments t).

Definition comment_count (t : Tables) (p : Post.t) : Z :=
  Z.of_nat (List.length (Post_comments t p)).

(** ** app/services/social_service.py *)

Module SocialService.

(** *** Connection methods *)

Definition send_connection_request (requester_id : Z)
    (connection_create : ConnectionCreate.t) : M (option Connection.t) :=
  let addressee_id := ConnectionCreate.addressee_id connection_create in
  try_except
    (rows <- execute (fun t =>
       filter (fun c =>
           ((Connection.requester_id c =? requester_id)
              && (Connection.addressee_id c =? addressee_id))
           || ((Connection.requester_id c =? addressee_id)
                 && (Connection.addressee_id c =? requester_id)))
         (connections t)) ;;
     existing_connection <- scalar_one_or_none rows ;;
     match existing_connection with
     | Some _ =>
         logger WARNING (connection_already_exists requester_id addressee_id) ;;
         ret None
     | None =>
         stage (InsertConnection requester_id addressee_id
                  (ConnectionCreate.message connection_create) PENDING) ;;
         keys <- commit ;;
         connection <- refresh connections Connection.id (last keys 0) ;;
         logger INFO (connection_request_sent requester_id addressee_id) ;;
         ret (Some connection)
     end)
    (fun e =>
       logger ERROR (error_sending_connection_request e) ;;
       rollback ;;
       ret None).

Definition respond_to_connection (connection_id user_id : Z) (accept : bool)
    : M (option Connection.t) :=
  try_except
    (connection <- get_connection connection_id ;;
     match connection with
     | None =>
         logger WARNING (invalid_connection_response_attempt user_id) ;;
         ret None
     | Some c =>
         if negb (Connection.addressee_id c =? user_id) then
           logger WARNING (invalid_connection_response_attempt user_id) ;;
           ret None
         else
           stage (UpdateConnectionStatus (Connection.id c)
                    (if accept then ACCEPTED else DECLINED)) ;;
           _ <- commit ;;
           connection <- refresh connections Connection.id (Connection.id c) ;;
           logger INFO (connection_responded connection_id accept user_id) ;;
           ret (Some connection)
     end)
    (fun e =>
       logger ERROR (error_responding_to_connection e) ;;
       rollback ;;
       ret None).

Definition get_user_connections (user_id : Z) : M (list Connection.t) :=
  try_except
    (result <- execute (fun t =>
       filter (fun c =>
           ((Connection.requester_id c =? user_id)
              || (Connection.addressee_id c =? user_id))
           && status_eqb (Connection.status c) ACCEPTED)
         (connections t)) ;;
     all result)
    (fun e =>
       logger ERROR (error_getting_connections user_id e) ;;
       ret []).

Definition get_pending_requests (user_id : Z) : M (list Connection.t) :=
  try_except
    (result <- execute (fun t =>
       filter (fun c =>
           (Connection.addressee_id c =? user_id)
           && status_eqb (Connection.status c) PENDING)
         (connections t)) ;;
     all result)
    (fun e =>
       logger ERROR (error_getting_pending_requests user_id e) ;;
       ret []).

(** *** Post methods *)

Definition create_post (user_id : Z) (post_create : PostCreate.t)
    : M (option Post.t) :=
  try_except
    (stage (InsertPost user_id (PostCreate.content post_create)) ;;
     keys <- commit ;;
     post <- refresh posts Post.id (last keys 0) ;;
     logger INFO (post_created user_id) ;;
     ret (Some post))
    (fun e =>
       logger ERROR (error_creating_post user_id e) ;;
       rollback ;;
       ret None).

(** [skip] and [limit] default to 0 and 20 in the source; a caller that
    leaves them out passes these. *)
Definition get_user_posts (user_id skip limit_ : Z) : M (list Post.t) :=
  try_except
    (result <- execute (fun t =>
       limit limit_ (offset skip
         (order_by_desc Post.created_at
            (filter (fun p => Post.user_id p =? user_id) (posts t))))) ;;
     all result)
    (fun e =>
       logger ERROR (error_getting_posts user_id e) ;;
       ret []).

(** The loop of [get_feed] over the accepted connections: the side of each
    that is not [user_id]. *)
Definition connected_user_ids (user_id : Z) (connections : list Connection.t)
    : list Z :=
  fold_left
    (fun ids conn =>
       if Connection.requester_id conn =? user_id
       then ids ++ [Connection.addressee_id conn]
       else ids ++ [Connection.requester_id conn])
    connections [].

Definition get_feed (user_id skip limit_ : Z) : M (list Post.t) :=
  try_except
    (connections <- get_user_connections user_id ;;
     let connected_user_ids :=
       connected_user_ids user_id connections ++ [user_id] in
     result <- execute (fun t =>
       limit limit_ (offset skip
         (order_by_desc Post.created_at
            (filter (fun p => mem (Post.user_id p) connected_user_ids)
               (posts t))))) ;;
     all result)
    (fun e =>
       logger ERROR (error_getting_feed user_id e) ;;
       ret []).

(** *** Interaction methods *)

Definition like_post (user_id post_id : Z) : M (option Like.t) :=
  try_except
    (rows <- execute (fun t =>
       filter (fun l =>
           (Like.user_id l =? user_id) && (Like.post_id l =? post_id))
         (likes t)) ;;
     existing_like <- scalar_one_or_none rows ;;
     match existing_like with
     | Some l =>
         stage (DeleteLike (Like.id l)) ;;
         _ <- commit ;;
         logger INFO (post_unliked post_id user_id) ;;
         ret None
     | None =>
         stage (InsertLike user_id post_id) ;;
         keys <- commit ;;
         like <- refresh likes Like.id (last keys 0) ;;
         logger INFO (post_liked post_id user_id) ;;
         ret (Some like)
     end)
    (fun e =>
       logger ERROR (error_liking_post post_id user_id e) ;;
       rollback ;;
       ret None).

Definition comment_on_post (user_id post_id : Z)
    (comment_create : CommentCreate.t) : M (option Comment.t) :=
  try_except
    (stage (InsertComment user_id post_id
              (CommentCreate.content comment_create)) ;;
     keys <- commit ;;
     comment <- refresh comments Comment.id (last keys 0) ;;
     logger INFO (comment_added post_id user_id) ;;
     ret (Some comment))
    (fun e =>
       logger ERROR (error_commenting post_id user_id e) ;;
       rollback ;;
       ret None).

End SocialService.

Import SocialService.

(** A session on a database where seven users have registered and nothing
    else has happened: foreign keys off as [database.py] leaves them,
    nothing pending, no failure ahead. *)
Definition registered : list Z := [1; 2; 3; 4; 5; 6; 7].

Definition initial_tables : Tables := mkTables registered [] [] [] [].

Definition fresh_session : Session := mkSession initial_tables [] false 0 [] [].

(** The session a call leaves behind. *)
Definition after {A} (m : M A) (s : Session) : Session := snd (m s).

(** What happens around the service between two of its calls: time passes,
    [AuthService.register_user] adds users, the backend comes and goes.
    Nothing else in the application writes to the tables of this module. *)
Definition world (us : list Z) (now : Z) (f : list bool) (s : Session)
    : Session :=
  mkSession
    (mkTables us (connections (tables s)) (posts (tables s))
       (comments (tables s)) (likes (tables s)))
    (pending s) (foreign_keys s) now f (log s).

(** The next [n] round trips succeed. *)
Definition calm (n : nat) (s : Session) : Prop :=
  forallb negb (firstn n (faults s)) = true.

(** ** What may happen to a session: the calls of the service, in any
    order and with any arguments, and the world moving in between *)

Inductive step : Session -> Session -> Prop :=
| step_send_connection_request r cc s :
    step s (snd (send_connection_request r cc s))
| step_respond_to_connection cid u acc s :
    step s (snd (respond_to_connection cid u acc s))
| step_get_user_connections u s :
    step s (snd (get_user_connections u s))
| step_get_pending_requests u s :
    step s (snd (get_pending_requests u s))
| step_create_post u pc s :
    step s (snd (create_post u pc s))
| step_get_user_posts u sk lim s :
    step s (snd (get_user_posts u sk lim s))
| step_get_feed u sk lim s :
    step s (snd (get_feed u sk lim s))
| step_like_post u p s :
    step s (snd (like_post u p s))
| step_comment_on_post u p cc s :
    step s (snd (comment_on_post u p cc s))
| step_world us now f s :
    step s (world us now f s).

Inductive steps : Session -> Session -> Prop :=
| steps_refl s : steps s s
| steps_cons s1 s2 s3 : steps s1 s2 -> step s2 s3 -> steps s1 s3.

(** ** The predicates of the queries, named *)

(** A connection record between [a] and [b], in either direction: the WHERE
    clause of [send_connection_request]. *)
Definition between (a b : Z) (c : Connection.t) : bool :=
  ((Connection.requester_id c =? a) && (Connection.addressee_id c =? b))
  || ((Connection.requester_id c =? b) && (Connection.addressee_id c =? a)).

Definition accepted_for (u : Z) (c : Connection.t) : bool :=
  ((Connection.requester_id c =? u) || (Connection.addressee_id c =? u))
  && status_eqb (Connection.status c) ACCEPTED.

Definition pending_for (u : Z) (c : Connection.t) : bool :=
  (Connection.addressee_id c =? u) && status_eqb (Connection.status c) PENDING.

Definition like_of (u p : Z) (l : Like.t) : bool :=
  (Like.user_id l =? u) && (Like.post_id l =? p).

(** The side of a connection that is not [u]. *)
Definition other_side (u : Z) (c : Connection.t) : Z :=
  if Connection.requester_id c =? u then Connection.addressee_id c
  else Connection.requester_id c.

(** The record [send_connection_request] inserts. *)
Definition new_connection (s : Session) (requester addressee : Z)
    (msg : option string) : Connection.t :=
  Connection.mk (new_id (map Connection.id (connections (tables s))))
    requester addressee PENDING msg (clock s) (clock s).

Definition new_comment (s : Session) (user post : Z) (text : string)
    : Comment.t :=
  Comment.mk (new_id (map Comment.id (comments (tables s))))
    post user text (clock s) (clock s).

Definition new_like (s : Session) (user post : Z) : Like.t :=
  Like.mk (new_id (map Like.id (likes (tables s)))) post user (clock s).

(** ** Facts about keys and lists *)

Lemma fold_max_bounds (l : list Z) (a : Z) :
  a <= fold_left Z.max l a /\ forall x, In x l -> x <= fold_left Z.max l a.
Proof.
  revert a; induction l as [|y l IH]; intros a; simpl.
  - split; [lia | contradiction].
  - destruct (IH (Z.max a y)) as [Ha Hl]. split; [lia|].
    intros x [<-|Hx]; [lia | auto].
Qed.

Lemma new_id_fresh (ids : list Z) (x : Z) : In x ids -> x < new_id ids.
Proof.
  destruct ids as [|y l]; simpl; [contradiction|].
  destruct (fold_max_bounds l y) as [Hy Hl].
  intros [<-|Hx]; [lia | specialize (Hl _ Hx); lia].
Qed.

Lemma find_app_fresh {A} (key : A -> Z) (k : Z) (l : list A) (x : A) :
  (forall r, In r l -> key r <> k) -> key x = k ->
  find (fun r => key r =? k) (l ++ [x]) = Some x.
Proof.
  intros Hl Hx; induction l as [|y l IH]; simpl.
  - rewrite Hx, Z.eqb_refl; reflexivity.
  - destruct (Z.eqb_spec (key y) k) as [E|_].
    + exfalso; apply (Hl y); [left; reflexivity | exact E].
    + apply IH; intros r Hr; apply Hl; right; exact Hr.
Qed.

Lemma find_new_row {A} (key : A -> Z) (l : list A) (x : A) :
  key x = new_id (map key l) ->
  find (fun r => key r =? new_id (map key l)) (l ++ [x]) = Some x.
Proof.
  intros Hx; apply find_app_fresh; [|exact Hx].
  intros r Hr E.
  assert (H : key r < new_id (map key l)) by (apply new_id_fresh, in_map, Hr).
  lia.
Qed.

Lemma update_status_id now k st c :
  Connection.id (update_status now k st c) = Connection.id c.
Proof.
  unfold update_status.
  destruct (Connection.id c =? k); [destruct (status_eqb _ _)|]; reflexivity.
Qed.

Lemma update_status_ends now k st c :
  Connection.requester_id (update_status now k st c) = Connection.requester_id c
  /\ Connection.addressee_id (update_status now k st c)
     = Connection.addressee_id c.
Proof.
  unfold update_status.
  destruct (Connection.id c =? k); [destruct (status_eqb _ _)|]; split;
    reflexivity.
Qed.

Lemma status_eqb_eq a b : status_eqb a b = true <-> a = b.
Proof. destruct a, b; simpl; split; congruence. Qed.

Lemma update_status_hit now st c :
  Connection.status (update_status now (Connection.id c) st c) = st.
Proof.
  unfold update_status. rewrite Z.eqb_refl.
  destruct (status_eqb (Connection.status c) st) eqn:E; [|reflexivity].
  apply status_eqb_eq; exact E.
Qed.

Lemma find_map_update now k st (l : list Connection.t) (j : Z) :
  find (fun c => Connection.id c =? j) (map (update_status now k st) l)
  = option_map (update_status now k st)
      (find (fun c => Connection.id c =? j) l).
Proof.
  induction l as [|c l IH]; simpl; [reflexivity|].
  rewrite update_status_id.
  destruct (Connection.id c =? j); [reflexivity | exact IH].
Qed.

Lemma filter_between_update now k st a b (l : list Connection.t) :
  filter (between a b) (map (update_status now k st) l)
  = map (update_status now k st) (filter (between a b) l).
Proof.
  induction l as [|c l IH]; simpl; [reflexivity|].
  assert (E : between a b (update_status now k st c) = between a b c).
  { unfold between. destruct (update_status_ends now k st c) as [-> ->].
    reflexivity. }
  rewrite E. destruct (between a b c); simpl; rewrite IH; reflexivity.
Qed.

Lemma between_sym a b c : between a b c = between b a c.
Proof. unfold between; apply orb_comm. Qed.

(** ** The methods, case by case *)

Ltac unfold_py :=
  cbv beta iota zeta delta
    [send_connection_request respond_to_connection get_user_connections
     get_pending_requests create_post get_user_posts get_feed like_post
     comment_on_post try_except bind execute get_connection commit
     refresh stage rollback logger all ret raise round_trip
     scalar_one_or_none].

(** A request between two users with a record already: refused, whatever
    else happens. *)
Lemma send_refused r cc s :
  filter (between r (ConnectionCreate.addressee_id cc))
    (connections (tables s)) <> [] ->
  fst (send_connection_request r cc s) = Ok None
  /\ tables (snd (send_connection_request r cc s)) = tables s.
Proof.
  intros H. unfold_py. simpl.
  destruct (hd false (faults s)); simpl; [split; reflexivity|].
  fold (between r (ConnectionCreate.addressee_id cc)).
  destruct (filter _ _) as [|x [|y l]]; [contradiction| |]; simpl;
    split; reflexivity.
Qed.

Definition with_connections (l : list Connection.t) (t : Tables) : Tables :=
  mkTables (users t) l (posts t) (comments t) (likes t).

Definition with_posts (l : list Post.t) (t : Tables) : Tables :=
  mkTables (users t) (connections t) l (comments t) (likes t).

Definition with_comments (l : list Comment.t) (t : Tables) : Tables :=
  mkTables (users t) (connections t) (posts t) l (likes t).

Definition with_likes (l : list Like.t) (t : Tables) : Tables :=
  mkTables (users t) (connections t) (posts t) (comments t) l.

(** Everything [send_connection_request] can do on a session with nothing
    pending: refuse and leave the tables alone, or, there being no record
    between the two users, insert the new one (and return it, unless the
    read-back after the commit fails). *)
Lemma send_cases r cc s :
  pending s = [] ->
  (fst (send_connection_request r cc s) = Ok None
   /\ tables (snd (send_connection_request r cc s)) = tables s
   /\ pending (snd (send_connection_request r cc s)) = [])
  \/ (filter (between r (ConnectionCreate.addressee_id cc))
        (connections (tables s)) = []
      /\ (fst (send_connection_request r cc s)
          = Ok (Some (new_connection s r (ConnectionCreate.addressee_id cc)
                        (ConnectionCreate.message cc)))
          \/ fst (send_connection_request r cc s) = Ok None)
      /\ tables (snd (send_connection_request r cc s))
         = with_connections
             (connections (tables s) ++
                [new_connection s r (ConnectionCreate.addressee_id cc)
                   (ConnectionCreate.message cc)])
             (tables s)
      /\ pending (snd (send_connection_request r cc s)) = []).
Proof.
  intros Hidle. unfold_py. simpl.
  destruct (hd false (faults s)); simpl; [left; auto|].
  fold (between r (ConnectionCreate.addressee_id cc)).
  destruct (filter _ _) as [|x [|y l]]; simpl; [| left; auto | left; auto].
  destruct (hd false (tl (faults s))); simpl; [left; auto|].
  rewrite Hidle; simpl.
  destruct (references _ r _ && references _ _ _); simpl; [|left; auto].
  right. split; [reflexivity|].
  destruct (hd false (tl (tl (faults s)))); simpl; [auto|].
  rewrite (find_new_row Connection.id) by reflexivity. simpl. auto.
Qed.

Lemma send_inserts r cc s :
  pending s = [] -> calm 3 s ->
  filter (between r (ConnectionCreate.addressee_id cc))
    (connections (tables s)) = [] ->
  references (foreign_keys s) r (users (tables s)) = true ->
  references (foreign_keys s) (ConnectionCreate.addressee_id cc)
    (users (tables s)) = true ->
  fst (send_connection_request r cc s)
  = Ok (Some (new_connection s r (ConnectionCreate.addressee_id cc)
                (ConnectionCreate.message cc)))
  /\ log (snd (send_connection_request r cc s))
     = (INFO, connection_request_sent r (ConnectionCreate.addressee_id cc))
         :: log s.
Proof.
  intros Hidle Hcalm Hrows Hr Ha. unfold_py. simpl.
  unfold calm in Hcalm.
  destruct (faults s) as [|[] [|[] [|[] f]]]; simpl in Hcalm;
    try discriminate; simpl;
    fold (between r (ConnectionCreate.addressee_id cc));
    rewrite Hrows; simpl; rewrite Hidle; simpl; rewrite Hr, Ha; simpl;
    rewrite (find_new_row Connection.id) by reflexivity; simpl; auto.
Qed.

(** Everything [respond_to_connection] can do on a session with nothing
    pending: refuse and leave the tables alone, or, the acting user being
    the addressee of the record, set its status. *)
Lemma respond_cases cid u acc s :
  pending s = [] ->
  (fst (respond_to_connection cid u acc s) = Ok None
   /\ tables (snd (respond_to_connection cid u acc s)) = tables s
   /\ pending (snd (respond_to_connection cid u acc s)) = [])
  \/ (exists c,
        find (fun c => Connection.id c =? cid) (connections (tables s))
        = Some c
        /\ Connection.addressee_id c = u
        /\ (fst (respond_to_connection cid u acc s)
            = Ok (Some (update_status (clock s) cid
                          (if acc then ACCEPTED else DECLINED) c))
            \/ fst (respond_to_connection cid u acc s) = Ok None)
        /\ tables (snd (respond_to_connection cid u acc s))
           = with_connections
               (map (update_status (clock s) cid
                       (if acc then ACCEPTED else DECLINED))
                  (connections (tables s)))
               (tables s)
        /\ pending (snd (respond_to_connection cid u acc s)) = []).
Proof.
  intros Hidle. unfold_py. simpl.
  destruct (hd false (faults s)); simpl; [left; auto|].
  destruct (find _ _) as [c|] eqn:Hfind; simpl; [|left; auto].
  destruct (Z.eqb_spec (Connection.addressee_id c) u) as [Hu|Hu]; simpl;
    [|left; auto].
  destruct (hd false (tl (faults s))); simpl; [left; auto|].
  rewrite Hidle; simpl.
  assert (Hid : Connection.id c = cid).
  { apply find_some in Hfind. destruct Hfind as [_ H].
    apply Z.eqb_eq in H. exact H. }
  rewrite Hid.
  right. exists c. split; [reflexivity|]. split; [exact Hu|].
  destruct (hd false (tl (tl (faults s)))); simpl; [auto|].
  rewrite find_map_update, Hfind. simpl. auto.
Qed.

Lemma respond_sets cid u acc s c :
  pending s = [] -> calm 3 s ->
  find (fun c => Connection.id c =? cid) (connections (tables s)) = Some c ->
  Connection.addressee_id c = u ->
  fst (respond_to_connection cid u acc s)
  = Ok (Some (update_status (clock s) cid
                (if acc then ACCEPTED else DECLINED) c)).
Proof.
  intros Hidle Hcalm Hfind Hu. unfold_py. simpl.
  assert (Hid : Connection.id c = cid).
  { apply find_some in Hfind. destruct Hfind as [_ H].
    apply Z.eqb_eq in H. exact H. }
  unfold calm in Hcalm.
  destruct (faults s) as [|[] [|[] [|[] f]]]; simpl in Hcalm;
    try discriminate; simpl;
    rewrite Hfind; simpl; rewrite Hu, Z.eqb_refl; simpl;
    rewrite Hidle; simpl; rewrite Hid, find_map_update, Hfind; reflexivity.
Qed.

(** The queries change neither the tables nor the pending work. *)
Lemma get_user_connections_reads u s :
  tables (snd (get_user_connections u s)) = tables s
  /\ pending (snd (get_user_connections u s)) = pending s.
Proof.
  unfold_py. simpl. destruct (hd false (faults s)); simpl; auto.
Qed.

Lemma get_pending_requests_reads u s :
  tables (snd (get_pending_requests u s)) = tables s
  /\ pending (snd (get_pending_requests u s)) = pending s.
Proof.
  unfold_py. simpl. destruct (hd false (faults s)); simpl; auto.
Qed.

Lemma get_user_posts_reads u sk lim s :
  tables (snd (get_user_posts u sk lim s)) = tables s
  /\ pending (snd (get_user_posts u sk lim s)) = pending s.
Proof.
  unfold_py. simpl. destruct (hd false (faults s)); simpl; auto.
Qed.

Lemma get_feed_reads u sk lim s :
  tables (snd (get_feed u sk lim s)) = tables s
  /\ pending (snd (get_feed u sk lim s)) = pending s.
Proof.
  unfold_py. simpl.
  destruct (hd false (faults s)); simpl;
    destruct (hd false (tl (faults s))); simpl; auto.
Qed.

Lemma get_user_connections_rows u s :
  hd false (faults s) = false ->
  fst (get_user_connections u s)
  = Ok (filter (accepted_for u) (connections (tables s))).
Proof. intros H. unfold_py. simpl. rewrite H. reflexivity. Qed.

Lemma get_pending_requests_rows u s :
  hd false (faults s) = false ->
  fst (get_pending_requests u s)
  = Ok (filter (pending_for u) (connections (tables s))).
Proof. intros H. unfold_py. simpl. rewrite H. reflexivity. Qed.

(** The audience of a feed as [get_feed] builds it. *)
Definition audience_ids (u : Z) (t : Tables) : list Z :=
  connected_user_ids u (filter (accepted_for u) (connections t)) ++ [u].

Definition feed_query (u sk lim : Z) (t : Tables) : list Post.t :=
  limit lim (offset sk
    (order_by_desc Post.created_at
       (filter (fun p => mem (Post.user_id p) (audience_ids u t)) (posts t)))).

Lemma get_feed_rows u sk lim s :
  calm 2 s ->
  fst (get_feed u sk lim s) = Ok (feed_query u sk lim (tables s)).
Proof.
  intros H. unfold_py. simpl. unfold calm in H.
  destruct (faults s) as [|[] [|[] f]]; simpl in H; try discriminate;
    reflexivity.
Qed.

Definition new_post (s : Session) (user : Z) (text : string) : Post.t :=
  Post.mk (new_id (map Post.id (posts (tables s)))) user text None
    (clock s) (clock s).

Lemma create_post_cases u pc s :
  pending s = [] ->
  pending (snd (create_post u pc s)) = []
  /\ (tables (snd (create_post u pc s)) = tables s
      \/ tables (snd (create_post u pc s))
         = with_posts
             (posts (tables s) ++ [new_post s u (PostCreate.content pc)])
             (tables s)).
Proof.
  intros Hidle. unfold_py. simpl.
  destruct (hd false (faults s)); simpl; [auto|].
  rewrite Hidle; simpl.
  destruct (references _ _ _); simpl; [|auto].
  destruct (hd false (tl (faults s))); simpl; [auto|].
  rewrite (find_new_row Post.id) by reflexivity. simpl. auto.
Qed.

Lemma comment_cases u p cc s :
  pending s = [] ->
  pending (snd (comment_on_post u p cc s)) = []
  /\ ((fst (comment_on_post u p cc s) = Ok None
       /\ tables (snd (comment_on_post u p cc s)) = tables s)
      \/ (references (foreign_keys s) p (map Post.id (posts (tables s)))
          = true
          /\ (fst (comment_on_post u p cc s)
              = Ok (Some (new_comment s u p (CommentCreate.content cc)))
              \/ fst (comment_on_post u p cc s) = Ok None)
          /\ tables (snd (comment_on_post u p cc s))
             = with_comments
                 (comments (tables s) ++
                    [new_comment s u p (CommentCreate.content cc)])
                 (tables s))).
Proof.
  intros Hidle. unfold_py. simpl.
  destruct (hd false (faults s)); simpl; [auto|].
  rewrite Hidle; simpl.
  destruct (references _ p _) eqn:Hp; simpl; [|auto].
  destruct (references _ u _); simpl; [|auto].
  destruct (hd false (tl (faults s))); simpl; [auto 6|].
  rewrite (find_new_row Comment.id) by reflexivity. simpl. auto 6.
Qed.

(** Everything [like_post] can do on a session with nothing pending. *)
Lemma like_cases u p s :
  pending s = [] ->
  pending (snd (like_post u p s)) = []
  /\ ((fst (like_post u p s) = Ok None
       /\ tables (snd (like_post u p s)) = tables s)
      \/ (filter (like_of u p) (likes (tables s)) = []
          /\ (fst (like_post u p s) = Ok (Some (new_like s u p))
              \/ fst (like_post u p s) = Ok None)
          /\ tables (snd (like_post u p s))
             = with_likes (likes (tables s) ++ [new_like s u p]) (tables s))
      \/ (exists l,
            filter (like_of u p) (likes (tables s)) = [l]
            /\ fst (like_post u p s) = Ok None
            /\ tables (snd (like_post u p s))
               = with_likes
                   (filter (fun x => negb (Like.id x =? Like.id l))
                      (likes (tables s)))
                   (tables s))).
Proof.
  intros Hidle. unfold_py. simpl.
  destruct (hd false (faults s)); simpl; [auto|].
  fold (like_of u p).
  destruct (filter _ _) as [|l [|y r]] eqn:Hrows; simpl; [| |auto].
  - destruct (hd false (tl (faults s))); simpl; [auto|].
    rewrite Hidle; simpl.
    destruct (references _ p _ && references _ u _); simpl; [|auto].
    split; [destruct (hd false (tl (tl (faults s)))); simpl;
            [|rewrite (find_new_row Like.id) by reflexivity]; reflexivity|].
    right; left. split; [reflexivity|].
    destruct (hd false (tl (tl (faults s)))); simpl; [auto|].
    rewrite (find_new_row Like.id) by reflexivity. simpl. auto.
  - destruct (hd false (tl (faults s))); simpl; [auto|].
    rewrite Hidle; simpl. split; [reflexivity|].
    right; right. exists l. auto.
Qed.

(** ** What a step does to the connection records: nothing, one more
    between two users that had none, or a status set. *)
Lemma step_connections s s' :
  step s s' -> pending s = [] ->
  pending s' = []
  /\ (connections (tables s') = connections (tables s)
      \/ (exists r a msg,
            filter (between r a) (connections (tables s)) = []
            /\ connections (tables s')
               = connections (tables s) ++ [new_connection s r a msg])
      \/ (exists now k st,
            connections (tables s')
            = map (update_status now k st) (connections (tables s)))).
Proof.
  intros Hstep Hidle. destruct Hstep.
  - destruct (send_cases r cc s Hidle) as [(_ & Ht & Hp)|(Hr & _ & Ht & Hp)];
      (split; [exact Hp|]); rewrite Ht; [left; reflexivity|].
    right; left.
    exists r, (ConnectionCreate.addressee_id cc), (ConnectionCreate.message cc).
    split; [exact Hr | reflexivity].
  - destruct (respond_cases cid u acc s Hidle)
      as [(_ & Ht & Hp)|(c & _ & _ & _ & Ht & Hp)];
      (split; [exact Hp|]); rewrite Ht; [left; reflexivity|].
    right; right.
    exists (clock s), cid, (if acc then ACCEPTED else DECLINED). reflexivity.
  - destruct (get_user_connections_reads u s) as [-> ->]; auto.
  - destruct (get_pending_requests_reads u s) as [-> ->]; auto.
  - destruct (create_post_cases u pc s Hidle) as [Hp [Ht|Ht]];
      rewrite Ht; auto.
  - destruct (get_user_posts_reads u sk lim s) as [-> ->]; auto.
  - destruct (get_feed_reads u sk lim s) as [-> ->]; auto.
  - destruct (like_cases u p s Hidle)
      as [Hp [[_ Ht]|[(_ & _ & Ht)|(l & _ & _ & Ht)]]]; rewrite Ht; auto.
  - destruct (comment_cases u p cc s Hidle)
      as [Hp [[_ Ht]|(_ & _ & Ht)]]; rewrite Ht; auto.
  - simpl. auto.
Qed.

(** ** Connection requests *)

Lemma between_inv a b c :
  between a b c = true ->
  (Connection.requester_id c = a /\ Connection.addressee_id c = b)
  \/ (Connection.requester_id c = b /\ Connection.addressee_id c = a).
Proof.
  unfold between. intros H. apply orb_true_iff in H.
  destruct H as [H|H]; apply andb_true_iff in H; destruct H as [H1 H2];
    apply Z.eqb_eq in H1; apply Z.eqb_eq in H2; auto.
Qed.

Lemma filter_between_sym a b (l : list Connection.t) :
  filter (between a b) l = filter (between b a) l.
Proof. apply filter_ext. intros c. apply between_sym. Qed.

(** The invariant behind the refusal of a second request: the session has
    nothing pending and holds exactly one record between [a] and [b], the
    one with key [k]. *)
Definition one_record (a b k : Z) (s : Session) : Prop :=
  pending s = []
  /\ exists c, filter (between a b) (connections (tables s)) = [c]
               /\ Connection.id c = k.

Lemma one_record_step a b k s s' :
  step s s' -> one_record a b k s -> one_record a b k s'.
Proof.
  intros Hstep [Hidle (c & Hc & Hk)].
  destruct (step_connections s s' Hstep Hidle)
    as [Hp [E|[(r & x & msg & Hnone & E)|(now & j & st & E)]]];
    (split; [exact Hp|]); rewrite E.
  - exists c. auto.
  - exists c. split; [|exact Hk].
    rewrite filter_app, Hc. simpl.
    destruct (between a b (new_connection s r x msg)) eqn:Hb;
      [|reflexivity].
    exfalso. apply between_inv in Hb. simpl in Hb.
    destruct Hb as [[-> ->]|[-> ->]].
    + rewrite Hnone in Hc. discriminate.
    + rewrite filter_between_sym, Hnone in Hc. discriminate.
  - exists (update_status now j st c). split.
    + rewrite filter_between_update, Hc. reflexivity.
    + rewrite update_status_id. exact Hk.
Qed.

Lemma one_record_steps a b k s s' :
  steps s s' -> one_record a b k s -> one_record a b k s'.
Proof.
  induction 1 as [|s1 s2 s3 _ IH Hstep]; intros H; [exact H|].
  eapply one_record_step; [exact Hstep | apply IH; exact H].
Qed.

Lemma send_success_inv r cc s c s1 :
  pending s = [] ->
  send_connection_request r cc s = (Ok (Some c), s1) ->
  filter (between r (ConnectionCreate.addressee_id cc))
    (connections (tables s)) = []
  /\ c = new_connection s r (ConnectionCreate.addressee_id cc)
           (ConnectionCreate.message cc)
  /\ tables s1
     = with_connections (connections (tables s) ++ [c]) (tables s)
  /\ pending s1 = [].
Proof.
  intros Hidle Hrun.
  destruct (send_cases r cc s Hidle) as [(Hf & _)|(Hr & Hf & Ht & Hp)];
    rewrite Hrun in *; simpl in *; [discriminate|].
  destruct Hf as [Hf|Hf]; [|discriminate].
  injection Hf as ->. auto.
Qed.

(** C1. For all users A <> B, once [send_connection_request(A, B)] has
    succeeded, every later [send_connection_request(A, B)] or
    [send_connection_request(B, A)], after any calls of the service in
    between, is refused: it returns [None] and stores nothing.  The one
    record between the two users is still the one created, whatever status
    the calls in between have given it, and, the backend answering, the
    refusal is the one logged as "Connection already exists". *)
Theorem C1_second_request_refused (A B : Z) (msg : option string)
    (s s1 s2 : Session) (c : Connection.t) :
  A <> B ->
  pending s = [] ->
  send_connection_request A (ConnectionCreate.mk B msg) s
  = (Ok (Some c), s1) ->
  steps s1 s2 ->
  forall (r : Z) (cc : ConnectionCreate.t),
    (r = A /\ ConnectionCreate.addressee_id cc = B)
    \/ (r = B /\ ConnectionCreate.addressee_id cc = A) ->
    (exists c2,
        filter (between A B) (connections (tables s2)) = [c2]
        /\ Connection.id c2 = Connection.id c)
    /\ fst (send_connection_request r cc s2) = Ok None
    /\ tables (snd (send_connection_request r cc s2)) = tables s2
    /\ (hd false (faults s2) = false ->
        log (snd (send_connection_request r cc s2))
        = (WARNING,
           connection_already_exists r (ConnectionCreate.addressee_id cc))
            :: log s2).
Proof.
  intros _ Hidle Hsend Hsteps r cc Hpair.
  destruct (send_success_inv _ _ _ _ _ Hidle Hsend)
    as (Hnone & Hc & Ht & Hp). simpl in Hnone, Hc.
  assert (H1 : one_record A B (Connection.id c) s1).
  { split; [exact Hp|]. exists c. split; [|reflexivity].
    rewrite Ht. simpl. rewrite filter_app, Hnone. simpl.
    rewrite Hc. unfold between. simpl. rewrite !Z.eqb_refl. reflexivity. }
  destruct (one_record_steps _ _ _ _ _ Hsteps H1) as [Hp2 (c2 & Hc2 & Hk)].
  assert (Hrows : filter (between r (ConnectionCreate.addressee_id cc))
                    (connections (tables s2)) = [c2]).
  { destruct Hpair as [[-> ->]|[-> ->]];
      [|rewrite filter_between_sym]; exact Hc2. }
  split; [exists c2; auto|].
  destruct (send_refused r cc s2) as [Hf Hu];
    [rewrite Hrows; discriminate|].
  split; [exact Hf|]. split; [exact Hu|].
  intros Hcalm. unfold_py. simpl. rewrite Hcalm. simpl.
  fold (between r (ConnectionCreate.addressee_id cc)). rewrite Hrows.
  reflexivity.
Qed.

(** User 1 asks user 2; user 2 accepts; user 2 declines after all. *)
Definition session_1_to_2 : Session := Eval vm_compute in
  after (send_connection_request 1 (ConnectionCreate.mk 2 None)) fresh_session.

Definition session_1_2_accepted : Session := Eval vm_compute in
  after (respond_to_connection 1 2 true) session_1_to_2.

Definition session_1_2_declined : Session := Eval vm_compute in
  after (respond_to_connection 1 2 false) session_1_2_accepted.

(** The second request is refused while the first is Pending, once it is
    Accepted and once it is Declined. *)
Lemma C1_second_request_refused_witness :
  fst (send_connection_request 1 (ConnectionCreate.mk 2 None) session_1_to_2)
  = Ok None
  /\ fst (send_connection_request 2 (ConnectionCreate.mk 1 None)
            session_1_2_accepted) = Ok None
  /\ fst (send_connection_request 2 (ConnectionCreate.mk 1 None)
            session_1_2_declined) = Ok None
  /\ connections
       (tables (snd (send_connection_request 2 (ConnectionCreate.mk 1 None)
                       session_1_2_declined)))
     = [Connection.mk 1 1 2 DECLINED None 0 0].
Proof.
  assert (Haccepted : steps session_1_to_2 session_1_2_accepted).
  { apply steps_cons with (s2 := session_1_to_2); [apply steps_refl|].
    apply (step_respond_to_connection 1 2 true). }
  assert (Hdeclined : steps session_1_to_2 session_1_2_declined).
  { apply steps_cons with (s2 := session_1_2_accepted); [exact Haccepted|].
    apply (step_respond_to_connection 1 2 false). }
  pose proof (C1_second_request_refused 1 2 None fresh_session session_1_to_2)
    as H.
  destruct (H session_1_to_2 (Connection.mk 1 1 2 PENDING None 0 0)
              ltac:(lia) eq_refl eq_refl (steps_refl _)
              1 (ConnectionCreate.mk 2 None) (or_introl (conj eq_refl eq_refl)))
    as (_ & H1 & _).
  destruct (H session_1_2_accepted (Connection.mk 1 1 2 PENDING None 0 0)
              ltac:(lia) eq_refl eq_refl Haccepted
              2 (ConnectionCreate.mk 1 None) (or_intror (conj eq_refl eq_refl)))
    as (_ & H2 & _).
  destruct (H session_1_2_declined (Connection.mk 1 1 2 PENDING None 0 0)
              ltac:(lia) eq_refl eq_refl Hdeclined
              2 (ConnectionCreate.mk 1 None) (or_intror (conj eq_refl eq_refl)))
    as (_ & H3 & H4 & _).
  split; [exact H1|]. split; [exact H2|]. split; [exact H3|].
  rewrite H4. reflexivity.
Defined.

(** The reading of C2 that the source does not meet: a request of a user
    to themselves always returns [None] and stores no record. *)
Definition self_request_always_fails : Prop :=
  forall (A : Z) (msg : option string) (s : Session),
    fst (send_connection_request A (ConnectionCreate.mk A msg) s) = Ok None
    /\ connections
         (tables (snd (send_connection_request A (ConnectionCreate.mk A msg)
                         s)))
       = connections (tables s).

(** On an empty database user 7 asks to connect to user 7: the record is
    stored and returned. *)
Lemma C2_self_request_stored :
  fst (send_connection_request 7 (ConnectionCreate.mk 7 None) fresh_session)
  = Ok (Some (Connection.mk 1 7 7 PENDING None 0 0))
  /\ connections
       (tables (snd (send_connection_request 7 (ConnectionCreate.mk 7 None)
                       fresh_session)))
     = [Connection.mk 1 7 7 PENDING None 0 0]
  /\ ~ self_request_always_fails.
Proof.
  split; [reflexivity|]. split; [reflexivity|].
  intros H. destruct (H 7 None fresh_session) as [H1 _]. discriminate H1.
Qed.

(** C2, as the source has it.  [send_connection_request] does not compare
    the requester with the addressee: a request of A to A is treated like
    any other.  It is refused, storing nothing, when a record from A to A
    exists already; otherwise (nothing pending, the backend answering, A a
    user where foreign keys are enforced) it stores and returns a Pending
    record from A to A. *)
Theorem C2_self_request_not_guarded (A : Z) (msg : option string)
    (s : Session) :
  (filter (between A A) (connections (tables s)) <> [] ->
   fst (send_connection_request A (ConnectionCreate.mk A msg) s) = Ok None
   /\ tables (snd (send_connection_request A (ConnectionCreate.mk A msg) s))
      = tables s)
  /\ (filter (between A A) (connections (tables s)) = [] ->
      pending s = [] -> calm 3 s ->
      references (foreign_keys s) A (users (tables s)) = true ->
      fst (send_connection_request A (ConnectionCreate.mk A msg) s)
      = Ok (Some (new_connection s A A msg))
      /\ connections
           (tables (snd (send_connection_request A
                           (ConnectionCreate.mk A msg) s)))
         = connections (tables s) ++ [new_connection s A A msg]).
Proof.
  split.
  - intros H. apply send_refused. exact H.
  - intros Hnone Hidle Hcalm Hfk.
    destruct (send_inserts A (ConnectionCreate.mk A msg) s Hidle Hcalm Hnone
                Hfk Hfk) as [Hf _].
    split; [exact Hf|].
    destruct (send_cases A (ConnectionCreate.mk A msg) s Hidle)
      as [(Hf' & _)|(_ & _ & Ht & _)].
    + rewrite Hf in Hf'. discriminate.
    + rewrite Ht. reflexivity.
Qed.

Definition session_7_to_7 : Session := Eval vm_compute in
  after (send_connection_request 7 (ConnectionCreate.mk 7 None)) fresh_session.

Lemma C2_self_request_not_guarded_witness :
  fst (send_connection_request 7 (ConnectionCreate.mk 7 None) fresh_session)
  = Ok (Some (Connection.mk 1 7 7 PENDING None 0 0))
  /\ fst (send_connection_request 7 (ConnectionCreate.mk 7 None)
            session_7_to_7) = Ok None.
Proof.
  split.
  - apply (proj2 (C2_self_request_not_guarded 7 None fresh_session));
      reflexivity.
  - apply (proj1 (C2_self_request_not_guarded 7 None session_7_to_7)).
    simpl. discriminate.
Defined.

(** ** Responses *)

(** The reading of C3 that the source does not meet: a response to a
    connection that is no longer Pending returns [None] and leaves the
    stored records as they are. *)
Definition response_needs_pending : Prop :=
  forall (cid u : Z) (acc : bool) (s : Session) (c : Connection.t),
    find (fun c => Connection.id c =? cid) (connections (tables s)) = Some c ->
    Connection.status c <> PENDING ->
    fst (respond_to_connection cid u acc s) = Ok None
    /\ connections (tables (snd (respond_to_connection cid u acc s)))
       = connections (tables s).

(** User 1 asks user 2, user 2 accepts, then user 2 responds again, this
    time declining: the second response is carried out and the stored
    record goes from Accepted to Declined. *)
Lemma C3_second_response_carried_out :
  connections (tables session_1_2_accepted)
  = [Connection.mk 1 1 2 ACCEPTED None 0 0]
  /\ fst (respond_to_connection 1 2 false session_1_2_accepted)
     = Ok (Some (Connection.mk 1 1 2 DECLINED None 0 0))
  /\ connections
       (tables (snd (respond_to_connection 1 2 false session_1_2_accepted)))
     = [Connection.mk 1 1 2 DECLINED None 0 0]
  /\ ~ response_needs_pending.
Proof.
  split; [reflexivity|]. split; [reflexivity|]. split; [reflexivity|].
  intros H.
  destruct (H 1 2 false session_1_2_accepted
              (Connection.mk 1 1 2 ACCEPTED None 0 0) eq_refl
              ltac:(discriminate)) as [H1 _].
  discriminate H1.
Qed.

Lemma respond_refused cid u acc s :
  (forall c,
      find (fun c => Connection.id c =? cid) (connections (tables s)) = Some c
      -> Connection.addressee_id c <> u) ->
  fst (respond_to_connection cid u acc s) = Ok None
  /\ tables (snd (respond_to_connection cid u acc s)) = tables s
  /\ (hd false (faults s) = false ->
      log (snd (respond_to_connection cid u acc s))
      = (WARNING, invalid_connection_response_attempt u) :: log s).
Proof.
  intros H. unfold_py. simpl.
  destruct (hd false (faults s)); simpl;
    [repeat split; intros; discriminate|].
  destruct (find _ _) as [c|]; simpl; [|auto].
  destruct (Z.eqb_spec (Connection.addressee_id c) u) as [E|_]; simpl;
    [|auto].
  exfalso. exact (H c eq_refl E).
Qed.

(** C3, as the source has it.  [respond_to_connection] returns [None] and
    leaves the stored records unchanged when the connection id is unknown
    and when the acting user is not the addressee of the record; the two
    refusals are one and the same ([None], and the same warning in the
    log).  So a requester who is not also the addressee cannot approve
    their own request.  The status of the record is not looked at: the
    response of the addressee is carried out whether the record is Pending,
    Accepted or Declined, and sets the status anew. *)
Theorem C3_response_by_addressee_only (cid u : Z) (acc : bool) (s : Session) :
  (find (fun c => Connection.id c =? cid) (connections (tables s)) = None ->
   fst (respond_to_connection cid u acc s) = Ok None
   /\ tables (snd (respond_to_connection cid u acc s)) = tables s
   /\ (hd false (faults s) = false ->
       log (snd (respond_to_connection cid u acc s))
       = (WARNING, invalid_connection_response_attempt u) :: log s))
  /\ (forall c,
        find (fun c => Connection.id c =? cid) (connections (tables s))
        = Some c ->
        Connection.addressee_id c <> u ->
        fst (respond_to_connection cid u acc s) = Ok None
        /\ tables (snd (respond_to_connection cid u acc s)) = tables s
        /\ (hd false (faults s) = false ->
            log (snd (respond_to_connection cid u acc s))
            = (WARNING, invalid_connection_response_attempt u) :: log s))
  /\ (forall c,
        find (fun c => Connection.id c =? cid) (connections (tables s))
        = Some c ->
        Connection.requester_id c = u ->
        Connection.requester_id c <> Connection.addressee_id c ->
        fst (respond_to_connection cid u acc s) = Ok None
        /\ tables (snd (respond_to_connection cid u acc s)) = tables s)
  /\ (forall c,
        find (fun c => Connection.id c =? cid) (connections (tables s))
        = Some c ->
        Connection.addressee_id c = u ->
        pending s = [] -> calm 3 s ->
        fst (respond_to_connection cid u acc s)
        = Ok (Some (update_status (clock s) cid
                      (if acc then ACCEPTED else DECLINED) c))
        /\ Connection.status
             (update_status (clock s) cid
                (if acc then ACCEPTED else DECLINED) c)
           = (if acc then ACCEPTED else DECLINED)
        /\ connections (tables (snd (respond_to_connection cid u acc s)))
           = map (update_status (clock s) cid
                    (if acc then ACCEPTED else DECLINED))
               (connections (tables s))).
Proof.
  split; [|split; [|split]].
  - intros Hnone. apply respond_refused. intros c Hc. congruence.
  - intros c Hc Hu. apply respond_refused. intros c' Hc'. congruence.
  - intros c Hc Hu Hne.
    destruct (respond_refused cid u acc s) as (Hf & Ht & _); [|auto].
    intros c' Hc'. congruence.
  - intros c Hc Hu Hidle Hcalm.
    pose proof (respond_sets cid u acc s c Hidle Hcalm Hc Hu) as Hf.
    split; [exact Hf|]. split.
    + assert (Hid : Connection.id c = cid).
      { apply find_some in Hc. destruct Hc as [_ E]. apply Z.eqb_eq in E.
        exact E. }
      rewrite <- Hid. apply update_status_hit.
    + destruct (respond_cases cid u acc s Hidle)
        as [(Hf' & _)|(c' & _ & _ & _ & Ht & _)].
      * rewrite Hf in Hf'. discriminate.
      * rewrite Ht. reflexivity.
Qed.

(** An unknown id, a stranger and the requester are refused; the addressee
    declines a connection already Accepted; user 7, who asked themselves,
    accepts their own request. *)
Lemma C3_response_by_addressee_only_witness :
  fst (respond_to_connection 9 2 true session_1_to_2) = Ok None
  /\ fst (respond_to_connection 1 3 true session_1_to_2) = Ok None
  /\ fst (respond_to_connection 1 1 true session_1_to_2) = Ok None
  /\ fst (respond_to_connection 1 2 false session_1_2_accepted)
     = Ok (Some (Connection.mk 1 1 2 DECLINED None 0 0))
  /\ fst (respond_to_connection 1 7 true session_7_to_7)
     = Ok (Some (Connection.mk 1 7 7 ACCEPTED None 0 0)).
Proof.
  split; [|split; [|split; [|split]]].
  - apply (proj1 (C3_response_by_addressee_only 9 2 true session_1_to_2)).
    reflexivity.
  - apply (proj1 (proj2
             (C3_response_by_addressee_only 1 3 true session_1_to_2))
             (Connection.mk 1 1 2 PENDING None 0 0)).
    + reflexivity.
    + simpl. lia.
  - apply (proj1 (proj2 (proj2
             (C3_response_by_addressee_only 1 1 true session_1_to_2)))
             (Connection.mk 1 1 2 PENDING None 0 0)).
    + reflexivity.
    + reflexivity.
    + simpl. lia.
  - apply (proj2 (proj2 (proj2
             (C3_response_by_addressee_only 1 2 false session_1_2_accepted)))
             (Connection.mk 1 1 2 ACCEPTED None 0 0)); reflexivity.
  - apply (proj2 (proj2 (proj2
             (C3_response_by_addressee_only 1 7 true session_7_to_7)))
             (Connection.mk 1 7 7 PENDING None 0 0)); reflexivity.
Defined.

(** ** Accepted connections and the audience of a feed *)

Lemma connected_user_ids_map u (l : list Connection.t) :
  connected_user_ids u l = map (other_side u) l.
Proof.
  unfold connected_user_ids.
  enough (G : forall acc,
             fold_left
               (fun ids conn =>
                  if Connection.requester_id conn =? u
                  then ids ++ [Connection.addressee_id conn]
                  else ids ++ [Connection.requester_id conn]) l acc
             = acc ++ map (other_side u) l) by apply (G []).
  induction l as [|c l IH]; intros acc; simpl.
  - rewrite app_nil_r. reflexivity.
  - rewrite IH. unfold other_side.
    destruct (Connection.requester_id c =? u); rewrite <- app_assoc;
      reflexivity.
Qed.

Lemma respond_success_inv cid u acc s c' s2 :
  pending s = [] ->
  respond_to_connection cid u acc s = (Ok (Some c'), s2) ->
  exists c,
    find (fun c => Connection.id c =? cid) (connections (tables s)) = Some c
    /\ Connection.addressee_id c = u
    /\ c' = update_status (clock s) cid (if acc then ACCEPTED else DECLINED) c
    /\ tables s2
       = with_connections
           (map (update_status (clock s) cid
                   (if acc then ACCEPTED else DECLINED))
              (connections (tables s)))
           (tables s).
Proof.
  intros Hidle Hrun.
  destruct (respond_cases cid u acc s Hidle)
    as [(Hf & _)|(c & Hc & Hu & Hf & Ht & _)];
    rewrite Hrun in *; simpl in *; [discriminate|].
  destruct Hf as [Hf|Hf]; [|discriminate].
  injection Hf as ->. exists c. auto.
Qed.

(** C4. After [send_connection_request(A, B, msg)] has succeeded and B has
    accepted with [respond_to_connection(conn_id, B, True)], the record is
    stored as Accepted, still from A to B, and the accepted connections read
    the same from both ends: [get_user_connections(A)] holds the record and
    its other side is B, [get_user_connections(B)] holds it and its other
    side is A. *)
Theorem C4_accepted_connection_symmetric (A B : Z) (msg : option string)
    (s s1 s2 : Session) (c c' : Connection.t) :
  pending s = [] ->
  send_connection_request A (ConnectionCreate.mk B msg) s
  = (Ok (Some c), s1) ->
  respond_to_connection (Connection.id c) B true s1 = (Ok (Some c'), s2) ->
  Connection.status c' = ACCEPTED
  /\ Connection.id c' = Connection.id c
  /\ Connection.requester_id c' = A
  /\ Connection.addressee_id c' = B
  /\ find (fun x => Connection.id x =? Connection.id c)
       (connections (tables s2)) = Some c'
  /\ forall s3,
       tables s3 = tables s2 -> hd false (faults s3) = false ->
       (exists l,
           fst (get_user_connections A s3) = Ok l
           /\ In c' l /\ other_side A c' = B
           /\ In B (connected_user_ids A l))
       /\ (exists l,
             fst (get_user_connections B s3) = Ok l
             /\ In c' l /\ other_side B c' = A
             /\ In A (connected_user_ids B l)).
Proof.
  intros Hidle Hsend Hrespond.
  destruct (send_success_inv _ _ _ _ _ Hidle Hsend)
    as (_ & Hc & Ht1 & Hp1). simpl in Hc.
  destruct (respond_success_inv _ _ _ _ _ _ Hp1 Hrespond)
    as (c0 & Hfind & Hu & Hc' & Ht2).
  assert (Hc0 : c0 = c).
  { rewrite Ht1 in Hfind. simpl in Hfind.
    assert (Hk : Connection.id c
                 = new_id (map Connection.id (connections (tables s))))
      by (rewrite Hc; reflexivity).
    rewrite Hk, (find_new_row Connection.id) in Hfind by exact Hk.
    congruence. }
  subst c0.
  assert (Hst : Connection.status c' = ACCEPTED).
  { rewrite Hc'. apply (update_status_hit (clock s1) ACCEPTED c). }
  assert (Hid : Connection.id c' = Connection.id c)
    by (rewrite Hc'; apply update_status_id).
  assert (Hr : Connection.requester_id c' = A).
  { rewrite Hc'. destruct (update_status_ends (clock s1) (Connection.id c)
                             ACCEPTED c) as [-> _].
    rewrite Hc. reflexivity. }
  assert (Ha : Connection.addressee_id c' = B).
  { rewrite Hc'. destruct (update_status_ends (clock s1) (Connection.id c)
                             ACCEPTED c) as [_ ->].
    rewrite Hc. reflexivity. }
  assert (Hin : In c' (connections (tables s2))).
  { rewrite Ht2, Hc'. simpl. apply in_map.
    apply find_some in Hfind. apply Hfind. }
  split; [exact Hst|]. split; [exact Hid|]. split; [exact Hr|].
  split; [exact Ha|]. split.
  - rewrite Ht2. simpl. rewrite find_map_update, Hfind, Hc'. reflexivity.
  - intros s3 Ht3 Hcalm. split.
    + exists (filter (accepted_for A) (connections (tables s3))).
      split; [apply get_user_connections_rows; exact Hcalm|].
      assert (Hin' : In c' (filter (accepted_for A)
                              (connections (tables s3)))).
      { apply filter_In. rewrite Ht3. split; [exact Hin|].
        unfold accepted_for. rewrite Hr, Hst, Z.eqb_refl. reflexivity. }
      assert (Ho : other_side A c' = B).
      { unfold other_side. rewrite Hr, Z.eqb_refl. exact Ha. }
      split; [exact Hin'|]. split; [exact Ho|].
      rewrite connected_user_ids_map, <- Ho. apply in_map. exact Hin'.
    + exists (filter (accepted_for B) (connections (tables s3))).
      split; [apply get_user_connections_rows; exact Hcalm|].
      assert (Hin' : In c' (filter (accepted_for B)
                              (connections (tables s3)))).
      { apply filter_In. rewrite Ht3. split; [exact Hin|].
        unfold accepted_for. rewrite Ha, Hst, Z.eqb_refl, orb_true_r.
        reflexivity. }
      assert (Ho : other_side B c' = A).
      { unfold other_side. rewrite Hr, Ha.
        destruct (Z.eqb_spec A B) as [E|_]; [symmetry; exact E|reflexivity]. }
      split; [exact Hin'|]. split; [exact Ho|].
      rewrite connected_user_ids_map, <- Ho. apply in_map. exact Hin'.
Qed.

Lemma C4_accepted_connection_symmetric_witness :
  fst (get_user_connections 1 session_1_2_accepted)
  = Ok [Connection.mk 1 1 2 ACCEPTED None 0 0]
  /\ other_side 1 (Connection.mk 1 1 2 ACCEPTED None 0 0) = 2
  /\ fst (get_user_connections 2 session_1_2_accepted)
     = Ok [Connection.mk 1 1 2 ACCEPTED None 0 0]
  /\ other_side 2 (Connection.mk 1 1 2 ACCEPTED None 0 0) = 1.
Proof.
  destruct (C4_accepted_connection_symmetric 1 2 None fresh_session
              session_1_to_2 session_1_2_accepted
              (Connection.mk 1 1 2 PENDING None 0 0)
              (Connection.mk 1 1 2 ACCEPTED None 0 0)
              eq_refl eq_refl eq_refl)
    as (_ & _ & _ & _ & _ & H).
  destruct (H session_1_2_accepted eq_refl eq_refl)
    as [(l1 & _ & _ & H1 & _) (l2 & _ & _ & H2 & _)].
  split; [reflexivity|]. split; [exact H1|]. split; [reflexivity|exact H2].
Defined.

(** ** The feed *)

Lemma mem_In x l : mem x l = true <-> In x l.
Proof.
  unfold mem. rewrite existsb_exists. split.
  - intros (y & Hy & E). apply Z.eqb_eq in E. subst y. exact Hy.
  - intros H. exists x. split; [exact H | apply Z.eqb_refl].
Qed.

(** The audience in the words of the specification: the user, and the
    other side of each of their Accepted connections. *)
Definition in_audience (u : Z) (t : Tables) (v : Z) : Prop :=
  v = u
  \/ exists c,
       In c (connections t)
       /\ Connection.status c = ACCEPTED
       /\ ((Connection.requester_id c = u /\ Connection.addressee_id c = v)
           \/ (Connection.addressee_id c = u /\ Connection.requester_id c = v)).

Lemma audience_ids_spec u t v :
  mem v (audience_ids u t) = true <-> in_audience u t v.
Proof.
  unfold audience_ids, in_audience.
  rewrite mem_In, connected_user_ids_map, in_app_iff. split.
  - intros [H|[H|[]]]; [|left; symmetry; exact H].
    apply in_map_iff in H. destruct H as (c & Ho & Hc).
    apply filter_In in Hc. destruct Hc as [Hin Hacc].
    unfold accepted_for in Hacc. apply andb_true_iff in Hacc.
    destruct Hacc as [Hends Hst]. apply status_eqb_eq in Hst.
    right. exists c. split; [exact Hin|]. split; [exact Hst|].
    unfold other_side in Ho.
    destruct (Z.eqb_spec (Connection.requester_id c) u) as [E|E].
    + left. auto.
    + right. simpl in Hends. apply Z.eqb_eq in Hends. auto.
  - intros [->|(c & Hin & Hst & Hends)]; [right; left; reflexivity|].
    left. apply in_map_iff. exists c. split.
    + unfold other_side.
      destruct Hends as [[Hr Ha]|[Ha Hr]].
      * rewrite Hr, Z.eqb_refl. exact Ha.
      * destruct (Z.eqb_spec (Connection.requester_id c) u) as [E|_];
          congruence.
    + apply filter_In. split; [exact Hin|].
      unfold accepted_for. rewrite Hst.
      destruct Hends as [[Hr Ha]|[Ha Hr]].
      * rewrite Hr, Z.eqb_refl. reflexivity.
      * rewrite Ha, Z.eqb_refl, orb_true_r. reflexivity.
Qed.

(** *** ORDER BY key DESC: a permutation, sorted, and stable *)

Section OrderBy.

Context {A : Type}.
Variable key : A -> Z.

(** [x] comes no later than [y] under ORDER BY key DESC. *)
Definition key_desc (x y : A) : Prop := key y <= key x.

Lemma insert_desc_perm x l : Permutation (x :: l) (insert_desc key x l).
Proof.
  induction l as [|y l IH]; simpl; [apply Permutation_refl|].
  destruct (key y <=? key x); [apply Permutation_refl|].
  eapply perm_trans; [apply perm_swap|]. apply perm_skip. exact IH.
Qed.

Lemma order_by_desc_perm l : Permutation l (order_by_desc key l).
Proof.
  induction l as [|x l IH]; simpl; [constructor|].
  eapply perm_trans; [|apply insert_desc_perm]. apply perm_skip. exact IH.
Qed.

Lemma order_by_desc_In l x : In x (order_by_desc key l) <-> In x l.
Proof.
  split; apply Permutation_in;
    [apply Permutation_sym|]; apply order_by_desc_perm.
Qed.

Lemma insert_desc_sorted x l :
  StronglySorted key_desc l -> StronglySorted key_desc (insert_desc key x l).
Proof.
  induction 1 as [|y l Hl IH Hy]; simpl.
  - constructor; constructor.
  - destruct (Z.leb_spec (key y) (key x)) as [Hle|Hgt].
    + constructor; [constructor; assumption|].
      constructor; [exact Hle|].
      eapply Forall_impl; [|exact Hy]. unfold key_desc. intros z Hz. lia.
    + constructor; [exact IH|].
      eapply Permutation_Forall; [apply insert_desc_perm|].
      constructor; [unfold key_desc; lia | exact Hy].
Qed.

Lemma order_by_desc_sorted l : StronglySorted key_desc (order_by_desc key l).
Proof.
  induction l as [|x l IH]; simpl; [constructor|].
  apply insert_desc_sorted. exact IH.
Qed.

(** Rows of equal key keep the order they had. *)
Lemma insert_desc_ties (k : Z) x l :
  filter (fun y => key y =? k) (insert_desc key x l)
  = filter (fun y => key y =? k) (x :: l).
Proof.
  induction l as [|y l IH]; simpl; [reflexivity|].
  destruct (Z.leb_spec (key y) (key x)) as [Hle|Hgt]; [reflexivity|].
  simpl. rewrite IH. simpl.
  destruct (Z.eqb_spec (key y) k) as [Ey|Ey];
    destruct (Z.eqb_spec (key x) k) as [Ex|Ex]; try reflexivity.
  exfalso. lia.
Qed.

Lemma order_by_desc_ties (k : Z) l :
  filter (fun y => key y =? k) (order_by_desc key l)
  = filter (fun y => key y =? k) l.
Proof.
  induction l as [|x l IH]; simpl; [reflexivity|].
  rewrite insert_desc_ties. simpl. rewrite IH. reflexivity.
Qed.

End OrderBy.

Lemma offset_In {A} n (l : list A) x : In x (offset n l) -> In x l.
Proof.
  unfold offset. intros H.
  rewrite <- (firstn_skipn (Z.to_nat n) l). apply in_or_app. right. exact H.
Qed.

Lemma limit_In {A} n (l : list A) x : In x (limit n l) -> In x l.
Proof.
  unfold limit. destruct (n <? 0); [auto|]. intros H.
  rewrite <- (firstn_skipn (Z.to_nat n) l). apply in_or_app. left. exact H.
Qed.

Lemma offset_none {A} n (l : list A) : n <= 0 -> offset n l = l.
Proof.
  intros H. unfold offset.
  replace (Z.to_nat n) with 0%nat by lia. reflexivity.
Qed.

Lemma limit_all {A} n (l : list A) :
  n < 0 \/ Z.of_nat (List.length l) <= n -> limit n l = l.
Proof.
  intros H. unfold limit. destruct (Z.ltb_spec n 0) as [_|Hn]; [reflexivity|].
  apply firstn_all2. lia.
Qed.

Lemma feed_query_In u sk lim t p :
  In p (feed_query u sk lim t) ->
  In p (posts t) /\ in_audience u t (Post.user_id p).
Proof.
  unfold feed_query. intros H.
  apply limit_In, offset_In, order_by_desc_In, filter_In in H.
  destruct H as [Hin Hm]. split; [exact Hin|].
  apply audience_ids_spec. exact Hm.
Qed.

(** The posts of the audience of [u], in table order: the rows the query of
    [get_feed] selects before it sorts and cuts them. *)
Definition audience_posts (u : Z) (t : Tables) : list Post.t :=
  filter (fun p => mem (Post.user_id p) (audience_ids u t)) (posts t).

Lemma audience_posts_In u t p :
  In p (audience_posts u t)
  <-> In p (posts t) /\ in_audience u t (Post.user_id p).
Proof.
  unfold audience_posts. rewrite filter_In, audience_ids_spec. reflexivity.
Qed.

(** A page that starts at the top and whose limit covers the rows is all
    the rows. *)
Lemma page_uncut {A} sk lim (l : list A) :
  sk <= 0 -> lim < 0 \/ Z.of_nat (List.length l) <= lim ->
  limit lim (offset sk l) = l.
Proof.
  intros Hsk Hlim. rewrite offset_none by exact Hsk.
  apply limit_all. exact Hlim.
Qed.

Lemma feed_query_uncut u sk lim t :
  sk <= 0 ->
  lim < 0 \/ Z.of_nat (List.length (audience_posts u t)) <= lim ->
  feed_query u sk lim t = order_by_desc Post.created_at (audience_posts u t).
Proof.
  intros Hsk Hlim. unfold feed_query. fold (audience_posts u t).
  apply page_uncut; [exact Hsk|].
  rewrite <- (Permutation_length (order_by_desc_perm _ _)). exact Hlim.
Qed.

(** C5. For every user U, the backend answering, [get_feed(U, skip, limit)]
    returns the page, from offset [skip] and of at most [limit] rows, of the
    posts whose author is in the audience of U, the audience being U and
    the other side of each Accepted connection of U: posts of the audience
    and nothing else, and, where offset and limit do not cut the posts of
    the audience, exactly these.  With no accepted connection and one post
    by U the feed is exactly that post; and a post of another user V with
    no connection to U, or only Pending or Declined ones, is never in the
    feed of U. *)
Theorem C5_feed_is_the_audience_posts (U skip lim : Z) (s : Session) :
  calm 2 s ->
  exists feed,
    fst (get_feed U skip lim s) = Ok feed
    /\ (forall p,
          In p (audience_posts U (tables s))
          <-> In p (posts (tables s))
              /\ in_audience U (tables s) (Post.user_id p))
    /\ (exists full,
          Permutation full (audience_posts U (tables s))
          /\ feed = limit lim (offset skip full))
    /\ (forall p, In p feed ->
          In p (posts (tables s))
          /\ in_audience U (tables s) (Post.user_id p))
    /\ (skip <= 0 ->
        lim < 0
        \/ Z.of_nat (List.length (audience_posts U (tables s))) <= lim ->
        Permutation feed (audience_posts U (tables s))
        /\ forall p, In p (posts (tables s)) ->
                     in_audience U (tables s) (Post.user_id p) -> In p feed)
    /\ (forall p,
          filter (accepted_for U) (connections (tables s)) = [] ->
          filter (fun q => Post.user_id q =? U) (posts (tables s)) = [p] ->
          skip <= 0 -> lim < 0 \/ 1 <= lim ->
          feed = [p])
    /\ (forall V p,
          V <> U ->
          (forall c, In c (connections (tables s)) ->
                     between U V c = true ->
                     Connection.status c = PENDING
                     \/ Connection.status c = DECLINED) ->
          Post.user_id p = V ->
          ~ In p feed).
Proof.
  intros Hcalm. exists (feed_query U skip lim (tables s)).
  split; [apply get_feed_rows; exact Hcalm|].
  split; [intros p; apply audience_posts_In|].
  split.
  { exists (order_by_desc Post.created_at (audience_posts U (tables s))).
    split; [apply Permutation_sym, order_by_desc_perm | reflexivity]. }
  split; [intros p; apply feed_query_In|].
  split; [|split].
  - intros Hskip Hlim. rewrite (feed_query_uncut U skip lim) by assumption.
    split; [apply Permutation_sym, order_by_desc_perm|].
    intros p Hin Haud. apply order_by_desc_In, audience_posts_In. auto.
  - intros p Hnone Hone Hskip Hlim. unfold feed_query, audience_ids.
    rewrite Hnone. simpl.
    rewrite (filter_ext (fun q => mem (Post.user_id q) [U])
               (fun q => Post.user_id q =? U)), Hone
      by (intros q; unfold mem; simpl; apply orb_false_r).
    simpl. rewrite offset_none by exact Hskip.
    apply limit_all. simpl. lia.
  - intros V p Hne Hconn Hp Hin.
    apply feed_query_In in Hin. destruct Hin as [_ [E|(c & Hc & Hst & Hends)]].
    + congruence.
    + assert (Hb : between U V c = true).
      { unfold between. rewrite <- Hp.
        destruct Hends as [[-> ->]|[-> ->]]; rewrite !Z.eqb_refl; simpl;
          [reflexivity | apply orb_true_r]. }
      destruct (Hconn c Hc Hb) as [E|E]; congruence.
Qed.

(** A session to try the feed on: user 1 is connected to user 2 (accepted),
    has a request from user 3 waiting, was declined by user 4 and has
    nothing to do with user 5; each of the five has posted once. *)
Definition network_session : Session := Eval vm_compute in
  after (respond_to_connection 3 4 false)
    (after (send_connection_request 1 (ConnectionCreate.mk 4 None))
       (after (send_connection_request 3 (ConnectionCreate.mk 1 None))
          session_1_2_accepted)).

Definition feed_session : Session := Eval vm_compute in
  after (create_post 5 (PostCreate.mk "five"))
    (after (create_post 4 (PostCreate.mk "four"))
       (after (create_post 3 (PostCreate.mk "three"))
          (after (create_post 2 (PostCreate.mk "hello"))
             (after (create_post 1 (PostCreate.mk "mine"))
                network_session)))).

Definition own_post_session : Session := Eval vm_compute in
  after (create_post 1 (PostCreate.mk "mine")) fresh_session.

Lemma C5_feed_is_the_audience_posts_witness :
  (exists feed,
      fst (get_feed 1 0 20 feed_session) = Ok feed
      /\ In (Post.mk 2 2 "hello" None 0 0) feed
      /\ ~ In (Post.mk 3 3 "three" None 0 0) feed
      /\ ~ In (Post.mk 4 4 "four" None 0 0) feed
      /\ ~ In (Post.mk 5 5 "five" None 0 0) feed)
  /\ fst (get_feed 1 0 20 own_post_session)
     = Ok [Post.mk 1 1 "mine" None 0 0]
  /\ (exists feed,
        fst (get_feed 5 0 1 feed_session) = Ok feed
        /\ Permutation feed [Post.mk 5 5 "five" None 0 0]).
Proof.
  split; [|split].
  - destruct (C5_feed_is_the_audience_posts 1 0 20 feed_session eq_refl)
      as (feed & Hrun & _ & _ & _ & Hall & _ & Hout).
    exists feed. split; [exact Hrun|]. split; [|split; [|split]].
    + apply Hall.
      * lia.
      * right. simpl. lia.
      * simpl. auto.
      * right. exists (Connection.mk 1 1 2 ACCEPTED None 0 0).
        simpl. auto.
    + apply (Hout 3); [lia| |reflexivity].
      simpl. intros c [<-|[<-|[<-|[]]]]; simpl; auto; discriminate.
    + apply (Hout 4); [lia| |reflexivity].
      simpl. intros c [<-|[<-|[<-|[]]]]; simpl; auto; discriminate.
    + apply (Hout 5); [lia| |reflexivity].
      simpl. intros c [<-|[<-|[<-|[]]]]; simpl; auto; discriminate.
  - destruct (C5_feed_is_the_audience_posts 1 0 20 own_post_session eq_refl)
      as (feed & Hrun & _ & _ & _ & _ & Hone & _).
    rewrite Hrun. f_equal.
    apply Hone; [reflexivity|reflexivity|lia|right; lia].
  - destruct (C5_feed_is_the_audience_posts 5 0 1 feed_session eq_refl)
      as (feed & Hrun & _ & _ & _ & Hall & _).
    exists feed. split; [exact Hrun|].
    apply Hall; [lia | right; simpl; lia].
Defined.

(** ** Likes *)

Lemma like_inserts u p s :
  pending s = [] -> calm 3 s ->
  filter (like_of u p) (likes (tables s)) = [] ->
  references (foreign_keys s) p (map Post.id (posts (tables s))) = true ->
  references (foreign_keys s) u (users (tables s)) = true ->
  fst (like_post u p s) = Ok (Some (new_like s u p))
  /\ tables (snd (like_post u p s))
     = with_likes (likes (tables s) ++ [new_like s u p]) (tables s)
  /\ pending (snd (like_post u p s)) = []
  /\ faults (snd (like_post u p s)) = tl (tl (tl (faults s)))
  /\ foreign_keys (snd (like_post u p s)) = foreign_keys s.
Proof.
  intros Hidle Hcalm Hrows Hp Hu. unfold_py. simpl. unfold calm in Hcalm.
  destruct (faults s) as [|[] [|[] [|[] f]]]; simpl in Hcalm;
    try discriminate; simpl;
    fold (like_of u p); rewrite Hrows; simpl; rewrite Hidle; simpl;
    rewrite Hp, Hu; simpl;
    rewrite (find_new_row Like.id) by reflexivity; simpl; auto.
Qed.

Lemma like_deletes u p s l :
  pending s = [] -> calm 2 s ->
  filter (like_of u p) (likes (tables s)) = [l] ->
  fst (like_post u p s) = Ok None
  /\ tables (snd (like_post u p s))
     = with_likes
         (filter (fun x => negb (Like.id x =? Like.id l)) (likes (tables s)))
         (tables s)
  /\ log (snd (like_post u p s)) = (INFO, post_unliked p u) :: log s.
Proof.
  intros Hidle Hcalm Hrows. unfold_py. simpl. unfold calm in Hcalm.
  destruct (faults s) as [|[] [|[] f]]; simpl in Hcalm;
    try discriminate; simpl;
    fold (like_of u p); rewrite Hrows; simpl; rewrite Hidle; simpl; auto.
Qed.

Lemma like_fails u p s :
  hd false (faults s) = true ->
  fst (like_post u p s) = Ok None
  /\ tables (snd (like_post u p s)) = tables s
  /\ log (snd (like_post u p s))
     = (ERROR, error_liking_post p u OperationalError) :: log s.
Proof.
  intros H. unfold_py. simpl. rewrite H. simpl. auto.
Qed.

Lemma calm_after_three s s' :
  calm 5 s -> faults s' = tl (tl (tl (faults s))) -> calm 2 s'.
Proof.
  unfold calm. intros H ->.
  destruct (faults s) as [|[] [|[] [|[] [|[] [|[] f]]]]]; simpl in *;
    congruence.
Qed.

Lemma calm_le n m s : (m <= n)%nat -> calm n s -> calm m s.
Proof.
  unfold calm. intros Hle. generalize (faults s). revert m Hle.
  induction n as [|n IH]; intros m Hle l H.
  - replace m with 0%nat by lia. reflexivity.
  - destruct m as [|m]; [reflexivity|].
    destruct l as [|b l]; [reflexivity|]. simpl in *.
    apply andb_true_iff in H. destruct H as [-> H]. simpl.
    apply IH; [lia | exact H].
Qed.

Lemma filter_out_new_like (l : list Like.t) (x : Like.t) :
  Like.id x = new_id (map Like.id l) ->
  filter (fun y => negb (Like.id y =? Like.id x)) (l ++ [x]) = l.
Proof.
  intros Hx. rewrite filter_app. simpl. rewrite Z.eqb_refl. simpl.
  rewrite app_nil_r. apply forallb_filter_id. apply forallb_forall.
  intros y Hy. apply negb_true_iff, Z.eqb_neq.
  assert (H : Like.id y < new_id (map Like.id l))
    by (apply new_id_fresh, in_map, Hy).
  lia.
Qed.

(** C6. From any state with no Like of U for P (nothing pending, the
    backend answering, U and P existing where foreign keys are enforced),
    [like_post(U, P)] called twice returns first the new Like, then [None]
    for the removal.  In between there is exactly one Like of U for P and
    the like count of P is one higher, and no pair of a user and a post
    that had at most one Like has more; after the second call the likes,
    and with them the like count of every post, are what they were before. *)
Theorem C6_like_twice_restores (U P : Z) (s : Session) :
  pending s = [] -> calm 5 s ->
  filter (like_of U P) (likes (tables s)) = [] ->
  references (foreign_keys s) P (map Post.id (posts (tables s))) = true ->
  references (foreign_keys s) U (users (tables s)) = true ->
  let s1 := snd (like_post U P s) in
  let s2 := snd (like_post U P s1) in
  fst (like_post U P s) = Ok (Some (new_like s U P))
  /\ Like.user_id (new_like s U P) = U
  /\ Like.post_id (new_like s U P) = P
  /\ filter (like_of U P) (likes (tables s1)) = [new_like s U P]
  /\ (forall u p,
        (List.length (filter (like_of u p) (likes (tables s))) <= 1)%nat ->
        (List.length (filter (like_of u p) (likes (tables s1))) <= 1)%nat)
  /\ (forall p, Post.id p = P ->
                like_count (tables s1) p = like_count (tables s) p + 1)
  /\ fst (like_post U P s1) = Ok None
  /\ log s2 = (INFO, post_unliked P U) :: log s1
  /\ filter (like_of U P) (likes (tables s2)) = []
  /\ tables s2 = tables s
  /\ (forall p, like_count (tables s2) p = like_count (tables s) p).
Proof.
  intros Hidle Hcalm Hrows Hp Hu s1 s2.
  destruct (like_inserts U P s Hidle (calm_le 5 3 s ltac:(lia) Hcalm)
              Hrows Hp Hu) as (Hf1 & Ht1 & Hp1 & Hfl1 & _).
  fold s1 in Ht1, Hp1, Hfl1.
  assert (Hrows1 : filter (like_of U P) (likes (tables s1))
                   = [new_like s U P]).
  { rewrite Ht1. simpl. rewrite filter_app, Hrows. simpl.
    unfold like_of. simpl. rewrite !Z.eqb_refl. reflexivity. }
  destruct (like_deletes U P s1 (new_like s U P) Hp1
              (calm_after_three s s1 Hcalm Hfl1) Hrows1)
    as (Hf2 & Ht2 & Hl2).
  fold s2 in Ht2, Hl2.
  assert (Hsame : tables s2 = tables s).
  { rewrite Ht2, Ht1. unfold with_likes.
    cbn [likes users connections posts comments].
    rewrite filter_out_new_like by reflexivity.
    destruct (tables s); reflexivity. }
  split; [exact Hf1|]. split; [reflexivity|]. split; [reflexivity|].
  split; [exact Hrows1|]. split; [|split].
  - intros u p Hle. rewrite Ht1. simpl. rewrite filter_app. simpl.
    destruct (like_of u p (new_like s U P)) eqn:E;
      [|rewrite app_nil_r; exact Hle].
    unfold like_of in E. simpl in E. apply andb_true_iff in E.
    destruct E as [Eu Ep]. apply Z.eqb_eq in Eu. apply Z.eqb_eq in Ep.
    subst u p. rewrite Hrows. simpl. lia.
  - intros p Hid. unfold like_count, Post_likes. rewrite Ht1. simpl.
    rewrite filter_app, length_app. simpl. rewrite Hid, Z.eqb_refl. simpl.
    lia.
  - split; [exact Hf2|]. split; [exact Hl2|]. split.
    + rewrite Hsame. exact Hrows.
    + split; [exact Hsame|]. intros p. rewrite Hsame. reflexivity.
Qed.

(** User 1 has posted and user 2 likes the post. *)
Definition liked_session : Session := Eval vm_compute in
  after (like_post 2 1) own_post_session.

Lemma C6_like_twice_restores_witness :
  fst (like_post 3 1 liked_session) = Ok (Some (Like.mk 2 1 3 0))
  /\ fst (like_post 3 1 (after (like_post 3 1) liked_session)) = Ok None
  /\ like_count (tables liked_session) (Post.mk 1 1 "mine" None 0 0) = 1
  /\ like_count (tables (after (like_post 3 1) liked_session))
       (Post.mk 1 1 "mine" None 0 0) = 2
  /\ like_count
       (tables (after (like_post 3 1) (after (like_post 3 1) liked_session)))
       (Post.mk 1 1 "mine" None 0 0) = 1.
Proof.
  pose proof (C6_like_twice_restores 3 1 liked_session
                eq_refl eq_refl eq_refl eq_refl eq_refl) as H.
  cbv zeta in H.
  destruct H as (H1 & _ & _ & _ & _ & H2 & H3 & _ & _ & _ & H4).
  split; [exact H1|]. split; [exact H3|]. split; [reflexivity|].
  split; [exact (H2 (Post.mk 1 1 "mine" None 0 0) eq_refl)|].
  exact (H4 (Post.mk 1 1 "mine" None 0 0)).
Defined.

(** ** The order of the feed *)

Lemma sorted_skipn {A} (R : A -> A -> Prop) n l :
  StronglySorted R l -> StronglySorted R (skipn n l).
Proof.
  revert l; induction n as [|n IH]; intros l H; [exact H|].
  destruct l as [|x l]; [constructor|]. simpl. apply IH.
  inversion H; assumption.
Qed.

Lemma sorted_firstn {A} (R : A -> A -> Prop) n l :
  StronglySorted R l -> StronglySorted R (firstn n l).
Proof.
  revert l; induction n as [|n IH]; intros l H; [constructor|].
  destruct l as [|x l]; [constructor|]. simpl.
  inversion H as [|? ? Hl Hx]; subst. constructor; [apply IH; exact Hl|].
  rewrite Forall_forall in *. intros y Hy. apply Hx.
  rewrite <- (firstn_skipn n l). apply in_or_app. left. exact Hy.
Qed.

Lemma sorted_page {A} (R : A -> A -> Prop) sk lim (l : list A) :
  StronglySorted R l -> StronglySorted R (limit lim (offset sk l)).
Proof.
  intros H. unfold limit, offset.
  destruct (lim <? 0); [|apply sorted_firstn]; apply sorted_skipn; exact H.
Qed.

(** The reading of C7 that the source does not meet: of two posts of a feed
    with the same [created_at], the one with the larger id comes first. *)
Definition feed_ties_by_id_desc : Prop :=
  forall (u sk lim : Z) (s : Session) (feed : list Post.t),
    fst (get_feed u sk lim s) = Ok feed ->
    forall l1 p l2 q l3,
      feed = l1 ++ p :: l2 ++ q :: l3 ->
      Post.created_at p = Post.created_at q ->
      Post.id q < Post.id p.

(** User 1 posts seven times within one reading of the clock. *)
Definition seven_posts_session : Session := Eval vm_compute in
  let post := create_post 1 (PostCreate.mk "post") in
  after post (after post (after post (after post (after post (after post
    (after post fresh_session)))))).

(** The feed of user 1 then lists the seven posts, all of the same
    [created_at], by ascending id: the post with id 5 comes before the post
    with id 7. *)
Lemma C7_tie_in_insertion_order :
  fst (get_feed 1 0 20 seven_posts_session)
  = Ok (map (fun k => Post.mk k 1 "post" None 0 0) [1; 2; 3; 4; 5; 6; 7])
  /\ ~ feed_ties_by_id_desc.
Proof.
  split; [reflexivity|].
  intros H.
  specialize (H 1 0 20 seven_posts_session _ eq_refl
                (map (fun k => Post.mk k 1 "post" None 0 0) [1; 2; 3; 4])
                (Post.mk 5 1 "post" None 0 0)
                [Post.mk 6 1 "post" None 0 0]
                (Post.mk 7 1 "post" None 0 0)
                [] eq_refl eq_refl).
  simpl in H. lia.
Qed.

(** C7, as the source has it.  The backend answering, the feed is the page
    ([OFFSET skip LIMIT limit]) of the posts of the audience ordered by
    [created_at] descending, and so is itself ordered by [created_at]
    descending.  The query names no second sort key: posts of equal
    [created_at] come in the order in which the backend scans the table
    (insertion order on the default backend), not by id descending. *)
Theorem C7_feed_order (u sk lim : Z) (s : Session) :
  calm 2 s ->
  exists full feed,
    fst (get_feed u sk lim s) = Ok feed
    /\ feed = limit lim (offset sk full)
    /\ Permutation full
         (filter (fun p => mem (Post.user_id p) (audience_ids u (tables s)))
            (posts (tables s)))
    /\ StronglySorted (key_desc Post.created_at) full
    /\ StronglySorted (key_desc Post.created_at) feed
    /\ forall k,
         filter (fun p => Post.created_at p =? k) full
         = filter (fun p => Post.created_at p =? k)
             (filter (fun p => mem (Post.user_id p)
                                 (audience_ids u (tables s)))
                (posts (tables s))).
Proof.
  intros Hcalm.
  exists (order_by_desc Post.created_at
            (filter (fun p => mem (Post.user_id p) (audience_ids u (tables s)))
               (posts (tables s)))).
  exists (feed_query u sk lim (tables s)).
  split; [apply get_feed_rows; exact Hcalm|].
  split; [reflexivity|].
  split; [apply Permutation_sym, order_by_desc_perm|].
  split; [apply order_by_desc_sorted|].
  split; [apply sorted_page, order_by_desc_sorted|].
  intros k. apply order_by_desc_ties.
Qed.

Lemma C7_feed_order_witness :
  exists full feed,
    fst (get_feed 1 2 3 seven_posts_session) = Ok feed
    /\ feed = limit 3 (offset 2 full)
    /\ StronglySorted (key_desc Post.created_at) feed
    /\ filter (fun p => Post.created_at p =? 0) full
       = posts (tables seven_posts_session).
Proof.
  destruct (C7_feed_order 1 2 3 seven_posts_session eq_refl)
    as (full & feed & Hrun & Hpage & _ & _ & Hsorted & Hties).
  exists full, feed.
  split; [exact Hrun|]. split; [exact Hpage|]. split; [exact Hsorted|].
  rewrite Hties. reflexivity.
Defined.

(** ** Pending requests *)

(** The reading of C8 that the source does not meet: the pending requests
    come newest first. *)
Definition pending_requests_newest_first : Prop :=
  forall (u : Z) (s : Session) (l : list Connection.t),
    fst (get_pending_requests u s) = Ok l ->
    StronglySorted (key_desc Connection.created_at) l.

(** User 1 asks user 3 at time 10, user 2 asks user 3 at time 20. *)
Definition two_requests_session : Session := Eval vm_compute in
  after (send_connection_request 2 (ConnectionCreate.mk 3 None))
    (world registered 20 []
       (after (send_connection_request 1 (ConnectionCreate.mk 3 None))
          (world registered 10 [] fresh_session))).

(** The pending requests of user 3 then come oldest first. *)
Lemma C8_pending_requests_oldest_first :
  fst (get_pending_requests 3 two_requests_session)
  = Ok [Connection.mk 1 1 3 PENDING None 10 10;
        Connection.mk 2 2 3 PENDING None 20 20]
  /\ ~ pending_requests_newest_first.
Proof.
  split; [reflexivity|].
  intros H. specialize (H 3 two_requests_session _ eq_refl).
  inversion H as [|? ? _ Hall]; subst.
  inversion Hall as [|? ? Hle _]; subst.
  unfold key_desc in Hle. simpl in Hle. lia.
Qed.

Lemma filter_sorted {A} (R : A -> A -> Prop) (f : A -> bool) l :
  StronglySorted R l -> StronglySorted R (filter f l).
Proof.
  induction 1 as [|x l Hl IH Hx]; simpl; [constructor|].
  destruct (f x); [|exact IH]. constructor; [exact IH|].
  rewrite Forall_forall in *. intros y Hy. apply Hx.
  apply filter_In in Hy. apply Hy.
Qed.

(** C8, as the source has it.  For every user U, the backend answering,
    [get_pending_requests(U)] returns exactly the connections whose
    addressee is U and whose status is Pending.  The query has no ORDER BY:
    they come in the order in which the backend scans the table, so oldest
    first where the table is in order of creation, not newest first. *)
Theorem C8_pending_requests_in_scan_order (U : Z) (s : Session) :
  hd false (faults s) = false ->
  fst (get_pending_requests U s)
  = Ok (filter (pending_for U) (connections (tables s)))
  /\ (forall c,
        In c (filter (pending_for U) (connections (tables s)))
        <-> In c (connections (tables s))
            /\ Connection.addressee_id c = U
            /\ Connection.status c = PENDING)
  /\ (StronglySorted
        (fun a b => Connection.created_at a <= Connection.created_at b)
        (connections (tables s)) ->
      StronglySorted
        (fun a b => Connection.created_at a <= Connection.created_at b)
        (filter (pending_for U) (connections (tables s)))).
Proof.
  intros Hcalm. split; [apply get_pending_requests_rows; exact Hcalm|].
  split.
  - intros c. rewrite filter_In. unfold pending_for.
    rewrite andb_true_iff, Z.eqb_eq, status_eqb_eq. reflexivity.
  - apply filter_sorted.
Qed.

Lemma C8_pending_requests_in_scan_order_witness :
  fst (get_pending_requests 3 two_requests_session)
  = Ok (filter (pending_for 3) (connections (tables two_requests_session)))
  /\ StronglySorted
       (fun a b => Connection.created_at a <= Connection.created_at b)
       (filter (pending_for 3) (connections (tables two_requests_session))).
Proof.
  destruct (C8_pending_requests_in_scan_order 3 two_requests_session eq_refl)
    as (Hrun & _ & Hsorted).
  split; [exact Hrun|]. apply Hsorted. simpl.
  repeat constructor; simpl; lia.
Defined.

(** ** Comments *)

(** The reading of C9 that the source does not meet: a comment on a post
    that does not exist returns [None] and stores no comment. *)
Definition comment_needs_post : Prop :=
  forall (u p : Z) (cc : CommentCreate.t) (s : Session),
    ~ In p (map Post.id (posts (tables s))) ->
    fst (comment_on_post u p cc s) = Ok None
    /\ comments (tables (snd (comment_on_post u p cc s)))
       = comments (tables s).

(** On an empty database, as configured by default, user 1 comments on
    post 99: the comment is stored and returned. *)
Lemma C9_comment_on_missing_post_stored :
  posts (tables fresh_session) = []
  /\ fst (comment_on_post 1 99 (CommentCreate.mk "hi") fresh_session)
     = Ok (Some (Comment.mk 1 99 1 "hi" 0 0))
  /\ comments
       (tables (snd (comment_on_post 1 99 (CommentCreate.mk "hi")
                       fresh_session)))
     = [Comment.mk 1 99 1 "hi" 0 0]
  /\ ~ comment_needs_post.
Proof.
  split; [reflexivity|]. split; [reflexivity|]. split; [reflexivity|].
  intros H.
  destruct (H 1 99 (CommentCreate.mk "hi") fresh_session) as [H1 _].
  - simpl. auto.
  - discriminate H1.
Qed.

Lemma mem_false x l : ~ In x l -> mem x l = false.
Proof.
  intros H. destruct (mem x l) eqn:E; [|reflexivity].
  apply mem_In in E. contradiction.
Qed.

(** C9, as the source has it.  [comment_on_post] does not look the post
    up.  When no post with the given id exists, whether the comment is
    stored is left to the backend: where it enforces the foreign key of
    [comments.post_id] the call returns [None] and no comment record is
    created; where it does not, as on the default configuration, the call
    (nothing pending, the backend answering) stores the comment and returns
    it. *)
Theorem C9_comment_on_missing_post (u p : Z) (cc : CommentCreate.t)
    (s : Session) :
  ~ In p (map Post.id (posts (tables s))) ->
  pending s = [] ->
  (foreign_keys s = true ->
   fst (comment_on_post u p cc s) = Ok None
   /\ tables (snd (comment_on_post u p cc s)) = tables s)
  /\ (foreign_keys s = false -> calm 2 s ->
      fst (comment_on_post u p cc s)
      = Ok (Some (new_comment s u p (CommentCreate.content cc)))
      /\ comments (tables (snd (comment_on_post u p cc s)))
         = comments (tables s)
             ++ [new_comment s u p (CommentCreate.content cc)]).
Proof.
  intros Hmissing Hidle. split.
  - intros Hfk.
    destruct (comment_cases u p cc s Hidle) as [_ [H|(Href & _)]];
      [exact H|].
    unfold references in Href. rewrite Hfk, (mem_false _ _ Hmissing) in Href.
    discriminate.
  - intros Hfk Hcalm. unfold_py. simpl. unfold calm in Hcalm.
    destruct (faults s) as [|[] [|[] f]]; simpl in Hcalm; try discriminate;
      simpl; rewrite Hidle; simpl; unfold references; rewrite Hfk; simpl;
      rewrite (find_new_row Comment.id) by reflexivity; simpl; auto.
Qed.

(** The same database behind a backend that enforces foreign keys. *)
Definition strict_session : Session := mkSession initial_tables [] true 0 [] [].

Lemma C9_comment_on_missing_post_witness :
  fst (comment_on_post 1 99 (CommentCreate.mk "hi") strict_session) = Ok None
  /\ fst (comment_on_post 1 99 (CommentCreate.mk "hi") fresh_session)
     = Ok (Some (Comment.mk 1 99 1 "hi" 0 0)).
Proof.
  split.
  - apply (proj1 (C9_comment_on_missing_post 1 99 (CommentCreate.mk "hi")
                    strict_session (fun H => H) eq_refl)).
    reflexivity.
  - apply (proj2 (C9_comment_on_missing_post 1 99 (CommentCreate.mk "hi")
                    fresh_session (fun H => H) eq_refl));
      reflexivity.
Defined.

(** ** What the result of like_post tells *)

(** C10. [like_post] returns a Like only when the call has taken (U, P)
    from not liked to liked, and the Like is the record it created.  When
    it removes the one Like of U for P it returns [None]; on the same
    store, with the backend failing, it returns the same [None] and removes
    nothing: the result alone does not tell the removal from the failure. *)
Theorem C10_unlike_and_failure_both_none (U P : Z) (s : Session) :
  pending s = [] ->
  (forall l,
      fst (like_post U P s) = Ok (Some l) ->
      filter (like_of U P) (likes (tables s)) = []
      /\ l = new_like s U P
      /\ likes (tables (snd (like_post U P s))) = likes (tables s) ++ [l])
  /\ (forall l0 f,
        filter (like_of U P) (likes (tables s)) = [l0] ->
        calm 2 s ->
        (fst (like_post U P s) = Ok None
         /\ likes (tables (snd (like_post U P s)))
            = filter (fun x => negb (Like.id x =? Like.id l0))
                (likes (tables s))
         /\ ~ In l0 (likes (tables (snd (like_post U P s)))))
        /\ (fst (like_post U P (set_faults (true :: f) s)) = Ok None
            /\ tables (snd (like_post U P (set_faults (true :: f) s)))
               = tables s
            /\ In l0 (likes
                        (tables
                           (snd (like_post U P (set_faults (true :: f) s))))))).
Proof.
  intros Hidle. split.
  - intros l Hl.
    destruct (like_cases U P s Hidle)
      as [_ [[Hf _]|[(Hrows & Hf & Ht)|(l0 & _ & Hf & _)]]];
      try (rewrite Hl in Hf; discriminate).
    destruct Hf as [Hf|Hf]; [|rewrite Hl in Hf; discriminate].
    rewrite Hl in Hf. injection Hf as ->.
    split; [exact Hrows|]. split; [reflexivity|]. rewrite Ht. reflexivity.
  - intros l0 f Hrows Hcalm. split.
    + destruct (like_deletes U P s l0 Hidle Hcalm Hrows) as (Hf & Ht & _).
      split; [exact Hf|]. rewrite Ht. simpl. split; [reflexivity|].
      intros Hin. apply filter_In in Hin. destruct Hin as [_ Hne].
      rewrite Z.eqb_refl in Hne. discriminate.
    + destruct (like_fails U P (set_faults (true :: f) s) eq_refl)
        as (Hf & Ht & _).
      split; [exact Hf|]. split; [exact Ht|]. rewrite Ht. simpl.
      assert (Hin : In l0 (filter (like_of U P) (likes (tables s))))
        by (rewrite Hrows; left; reflexivity).
      apply filter_In in Hin. apply Hin.
Qed.

Lemma C10_unlike_and_failure_both_none_witness :
  fst (like_post 2 1 liked_session) = Ok None
  /\ likes (tables (snd (like_post 2 1 liked_session))) = []
  /\ fst (like_post 2 1 (set_faults [true] liked_session)) = Ok None
  /\ likes (tables (snd (like_post 2 1 (set_faults [true] liked_session))))
     = [Like.mk 1 1 2 0].
Proof.
  destruct (C10_unlike_and_failure_both_none 2 1 liked_session eq_refl)
    as [_ H].
  destruct (H (Like.mk 1 1 2 0) [] eq_refl eq_refl)
    as [(H1 & H2 & _) (H3 & H4 & _)].
  split; [exact H1|]. split; [rewrite H2; reflexivity|].
  split; [exact H3|]. rewrite H4. reflexivity.
Defined.

(** * Beyond the claims: what else the service guarantees *)

(** ** No query raises *)



(** ** What a step does to the other tables *)

Definition posts_moved (s s' : Session) : Prop :=
  posts (tables s') = posts (tables s)
  \/ exists u text, posts (tables s') = posts (tables s) ++ [new_post s u text].

Definition comments_moved (s s' : Session) : Prop :=
  comments (tables s') = comments (tables s)
  \/ exists u p text,
       comments (tables s') = comments (tables s) ++ [new_comment s u p text].

Definition likes_moved (s s' : Session) : Prop :=
  likes (tables s') = likes (tables s)
  \/ (exists u p,
        filter (like_of u p) (likes (tables s)) = []
        /\ likes (tables s') = likes (tables s) ++ [new_like s u p])
  \/ (exists l,
        In l (likes (tables s))
        /\ likes (tables s')
           = filter (fun x => negb (Like.id x =? Like.id l))
               (likes (tables s))).

Lemma step_rest s s' :
  step s s' -> pending s = [] ->
  posts_moved s s' /\ comments_moved s s' /\ likes_moved s s'.
Proof.
  unfold posts_moved, comments_moved, likes_moved.
  intros Hstep Hidle. destruct Hstep.
  - destruct (send_cases r cc s Hidle) as [(_ & Ht & _)|(_ & _ & Ht & _)];
      rewrite Ht; simpl; auto.
  - destruct (respond_cases cid u acc s Hidle)
      as [(_ & Ht & _)|(c & _ & _ & _ & Ht & _)]; rewrite Ht; simpl; auto.
  - destruct (get_user_connections_reads u s) as [-> _]; auto.
  - destruct (get_pending_requests_reads u s) as [-> _]; auto.
  - destruct (create_post_cases u pc s Hidle) as [_ [Ht|Ht]];
      rewrite Ht; simpl; [auto|].
    split; [right; eauto | auto].
  - destruct (get_user_posts_reads u sk lim s) as [-> _]; auto.
  - destruct (get_feed_reads u sk lim s) as [-> _]; auto.
  - destruct (like_cases u p s Hidle)
      as [_ [[_ Ht]|[(Hnone & _ & Ht)|(l & Hl & _ & Ht)]]];
      rewrite Ht; simpl; [auto| |].
    + split; [auto|]. split; [auto|]. right; left. eauto.
    + split; [auto|]. split; [auto|]. right; right. exists l.
      split; [|reflexivity].
      assert (Hin : In l (filter (like_of u p) (likes (tables s))))
        by (rewrite Hl; left; reflexivity).
      apply filter_In in Hin. apply Hin.
  - destruct (comment_cases u p cc s Hidle)
      as [_ [[_ Ht]|(_ & _ & Ht)]]; rewrite Ht; simpl; [auto|].
    split; [auto|]. split; [right; eauto | auto].
  - simpl. auto.
Qed.

Lemma step_idle s s' : step s s' -> pending s = [] -> pending s' = [].
Proof. intros H Hidle. apply (step_connections s s' H Hidle). Qed.

Lemma steps_idle s s' : steps s s' -> pending s = [] -> pending s' = [].
Proof.
  induction 1 as [|s1 s2 s3 _ IH Hstep]; intros H; [exact H|].
  eapply step_idle; [exact Hstep | apply IH; exact H].
Qed.

(** An invariant of single steps taken with nothing pending is an invariant
    of runs. *)
Lemma steps_invariant (I : Session -> Prop) :
  (forall s s', step s s' -> pending s = [] -> I s -> I s') ->
  forall s s', steps s s' -> pending s = [] -> I s -> I s'.
Proof.
  intros Hstep s s' Hsteps. induction Hsteps as [|s1 s2 s3 H12 IH H23];
    intros Hidle HI; [exact HI|].
  apply (Hstep s2 s3 H23); [eapply steps_idle; eassumption | auto].
Qed.

(** ** Invariants of the tables *)

(** X2. A session that enters a call of the service with nothing pending
    comes out of it, and out of any run of calls, with nothing pending:
    every write path ends in [commit] or in [rollback]. *)
Theorem X2_nothing_left_pending (s s' : Session) :
  steps s s' -> pending s = [] -> pending s' = [].
Proof.
  intros Hsteps Hidle.
  apply (steps_invariant (fun x => pending x = [])
           (fun a b Hstep Ha _ => step_idle a b Hstep Ha)
           s s' Hsteps Hidle Hidle).
Qed.

(** The run behind [session_1_2_declined]: user 1 asks user 2, user 2
    accepts, then declines. *)
Lemma run_to_declined : steps fresh_session session_1_2_declined.
Proof.
  apply steps_cons with (s2 := session_1_2_accepted);
    [|apply (step_respond_to_connection 1 2 false)].
  apply steps_cons with (s2 := session_1_to_2);
    [|apply (step_respond_to_connection 1 2 true)].
  apply steps_cons with (s2 := fresh_session); [apply steps_refl|].
  apply (step_send_connection_request 1 (ConnectionCreate.mk 2 None)).
Qed.

Lemma X2_nothing_left_pending_witness :
  pending session_1_2_declined = [].
Proof.
  apply (X2_nothing_left_pending fresh_session session_1_2_declined);
    [exact run_to_declined | reflexivity].
Defined.

Section Keys.

Context {A : Type}.
Variable key : A -> Z.

Lemma NoDup_new_row (l : list A) (x : A) :
  NoDup (map key l) -> key x = new_id (map key l) ->
  NoDup (map key (l ++ [x])).
Proof.
  intros Hl Hx. rewrite map_app. simpl.
  apply NoDup_app; [exact Hl | constructor; [intros []|constructor] |].
  intros k Hk [E|[]]. subst k. rewrite Hx in Hk.
  apply new_id_fresh in Hk. lia.
Qed.

Lemma NoDup_map_filter (f : A -> bool) (l : list A) :
  NoDup (map key l) -> NoDup (map key (filter f l)).
Proof.
  induction l as [|x l IH]; simpl; [auto|].
  intros H. inversion H as [|? ? Hx Hl]; subst.
  destruct (f x); simpl; [|auto].
  constructor; [|auto].
  intros Hin. apply Hx. apply in_map_iff in Hin.
  destruct Hin as (y & Hy & Hin). apply filter_In in Hin.
  apply in_map_iff. exists y. tauto.
Qed.

End Keys.

Lemma map_id_update now k st (l : list Connection.t) :
  map Connection.id (map (update_status now k st) l) = map Connection.id l.
Proof.
  rewrite map_map. apply map_ext. intros c. apply update_status_id.
Qed.

(** The primary keys of each table are pairwise distinct. *)
Definition keys_unique (t : Tables) : Prop :=
  NoDup (map Connection.id (connections t))
  /\ NoDup (map Post.id (posts t))
  /\ NoDup (map Comment.id (comments t))
  /\ NoDup (map Like.id (likes t)).

Lemma keys_unique_step s s' :
  step s s' -> pending s = [] ->
  keys_unique (tables s) -> keys_unique (tables s').
Proof.
  intros Hstep Hidle (Hc & Hp & Hm & Hl).
  destruct (step_connections s s' Hstep Hidle) as [_ Hconn].
  destruct (step_rest s s' Hstep Hidle) as (Hposts & Hcomments & Hlikes).
  split; [|split; [|split]].
  - destruct Hconn as [E|[(r & a & msg & _ & E)|(now & k & st & E)]];
      rewrite E.
    + exact Hc.
    + apply NoDup_new_row; [exact Hc | reflexivity].
    + rewrite map_id_update. exact Hc.
  - destruct Hposts as [E|(u & text & E)]; rewrite E;
      [exact Hp | apply NoDup_new_row; [exact Hp | reflexivity]].
  - destruct Hcomments as [E|(u & p & text & E)]; rewrite E;
      [exact Hm | apply NoDup_new_row; [exact Hm | reflexivity]].
  - destruct Hlikes as [E|[(u & p & _ & E)|(l & _ & E)]]; rewrite E.
    + exact Hl.
    + apply NoDup_new_row; [exact Hl | reflexivity].
    + apply NoDup_map_filter. exact Hl.
Qed.

(** X3. Primary keys stay unique: if the keys of each table (connections,
    posts, comments, likes) are pairwise distinct, they still are after
    any run of calls of the service. *)
Theorem X3_primary_keys_stay_unique (s s' : Session) :
  steps s s' -> pending s = [] ->
  keys_unique (tables s) -> keys_unique (tables s').
Proof.
  intros Hsteps Hidle.
  apply (steps_invariant (fun x => keys_unique (tables x))
           keys_unique_step s s' Hsteps Hidle).
Qed.

(** No two records connect the same two users, in whichever direction. *)
Definition one_record_per_pair (t : Tables) : Prop :=
  forall a b,
    (List.length (filter (between a b) (connections t)) <= 1)%nat.

Lemma one_record_per_pair_step s s' :
  step s s' -> pending s = [] ->
  one_record_per_pair (tables s) -> one_record_per_pair (tables s').
Proof.
  intros Hstep Hidle Hinv a b.
  destruct (step_connections s s' Hstep Hidle)
    as [_ [E|[(r & x & msg & Hnone & E)|(now & k & st & E)]]]; rewrite E.
  - apply Hinv.
  - rewrite filter_app, length_app. simpl.
    destruct (between a b (new_connection s r x msg)) eqn:Hb; simpl.
    + apply between_inv in Hb. simpl in Hb.
      destruct Hb as [[-> ->]|[-> ->]];
        [|rewrite filter_between_sym]; rewrite Hnone; simpl; lia.
    + rewrite Nat.add_0_r. apply Hinv.
  - rewrite filter_between_update, length_map. apply Hinv.
Qed.

(** X4. At most one connection record per unordered pair of users is an
    invariant of the service: it holds after any run of calls if it held
    before, because [send_connection_request] inserts only where no record
    between the two exists and nothing else inserts. *)
Theorem X4_one_record_per_pair_kept (s s' : Session) :
  steps s s' -> pending s = [] ->
  one_record_per_pair (tables s) -> one_record_per_pair (tables s').
Proof.
  intros Hsteps Hidle.
  apply (steps_invariant (fun x => one_record_per_pair (tables x))
           one_record_per_pair_step s s' Hsteps Hidle).
Qed.

(** No user has two Likes on the same post. *)
Definition one_like_per_pair (t : Tables) : Prop :=
  forall u p, (List.length (filter (like_of u p) (likes t)) <= 1)%nat.

Lemma filter_filter_length {A} (f g : A -> bool) (l : list A) :
  (List.length (filter f (filter g l)) <= List.length (filter f l))%nat.
Proof.
  induction l as [|x l IH]; simpl; [lia|].
  destruct (g x); simpl; destruct (f x); simpl; lia.
Qed.

Lemma one_like_per_pair_step s s' :
  step s s' -> pending s = [] ->
  one_like_per_pair (tables s) -> one_like_per_pair (tables s').
Proof.
  intros Hstep Hidle Hinv u p.
  destruct (step_rest s s' Hstep Hidle)
    as (_ & _ & [E|[(v & q & Hnone & E)|(l & _ & E)]]); rewrite E.
  - apply Hinv.
  - rewrite filter_app, length_app. simpl.
    destruct (like_of u p (new_like s v q)) eqn:Hb; simpl.
    + unfold like_of in Hb. simpl in Hb. apply andb_true_iff in Hb.
      destruct Hb as [Hu Hp]. apply Z.eqb_eq in Hu. apply Z.eqb_eq in Hp.
      subst v q. rewrite Hnone. simpl. lia.
    + rewrite Nat.add_0_r. apply Hinv.
  - eapply Nat.le_trans; [apply filter_filter_length | apply Hinv].
Qed.

(** X5. At most one Like per user and post is an invariant of the service:
    [like_post] inserts only where the user has no Like on the post, and
    otherwise deletes. *)
Theorem X5_one_like_per_pair_kept (s s' : Session) :
  steps s s' -> pending s = [] ->
  one_like_per_pair (tables s) -> one_like_per_pair (tables s').
Proof.
  intros Hsteps Hidle.
  apply (steps_invariant (fun x => one_like_per_pair (tables x))
           one_like_per_pair_step s s' Hsteps Hidle).
Qed.

(** The run behind [liked_session]: user 1 posts, user 2 likes the post. *)
Lemma run_to_liked : steps fresh_session liked_session.
Proof.
  apply steps_cons with (s2 := own_post_session);
    [|apply (step_like_post 2 1)].
  apply steps_cons with (s2 := fresh_session); [apply steps_refl|].
  apply (step_create_post 1 (PostCreate.mk "mine")).
Qed.

Lemma X3_primary_keys_stay_unique_witness :
  keys_unique (tables session_1_2_declined)
  /\ keys_unique (tables liked_session).
Proof.
  split.
  - apply (X3_primary_keys_stay_unique fresh_session session_1_2_declined
             run_to_declined eq_refl).
    repeat split; constructor.
  - apply (X3_primary_keys_stay_unique fresh_session liked_session
             run_to_liked eq_refl).
    repeat split; constructor.
Defined.

Lemma X4_one_record_per_pair_kept_witness :
  one_record_per_pair (tables session_1_2_declined).
Proof.
  apply (X4_one_record_per_pair_kept fresh_session session_1_2_declined
           run_to_declined eq_refl).
  intros a b. simpl. lia.
Defined.

Lemma X5_one_like_per_pair_kept_witness :
  one_like_per_pair (tables liked_session).
Proof.
  apply (X5_one_like_per_pair_kept fresh_session liked_session
           run_to_liked eq_refl).
  intros u p. simpl. lia.
Defined.

(** ** Nothing is deleted, nothing is rewritten *)

(** What a connection record is from its creation on: everything but its
    status and the time of its last update. *)
Definition identity (c : Connection.t)
    : Z * Z * Z * option string * Z :=
  (Connection.id c, Connection.requester_id c, Connection.addressee_id c,
   Connection.message c, Connection.created_at c).

Definition grown (t t' : Tables) : Prop :=
  (exists l, map identity (connections t')
             = map identity (connections t) ++ l)
  /\ (exists l, posts t' = posts t ++ l)
  /\ (exists l, comments t' = comments t ++ l).

Lemma identity_update now k st c : identity (update_status now k st c) = identity c.
Proof.
  unfold identity, update_status.
  destruct (Connection.id c =? k); [destruct (status_eqb _ _)|]; reflexivity.
Qed.

Lemma grown_refl t : grown t t.
Proof.
  repeat split; exists []; rewrite app_nil_r; reflexivity.
Qed.

Lemma grown_trans t1 t2 t3 : grown t1 t2 -> grown t2 t3 -> grown t1 t3.
Proof.
  intros ([a Ha] & [b Hb] & [c Hc]) ([a' Ha'] & [b' Hb'] & [c' Hc']).
  split; [|split].
  - exists (a ++ a'). rewrite Ha', Ha, app_assoc. reflexivity.
  - exists (b ++ b'). rewrite Hb', Hb, app_assoc. reflexivity.
  - exists (c ++ c'). rewrite Hc', Hc, app_assoc. reflexivity.
Qed.

Lemma grown_step s s' :
  step s s' -> pending s = [] -> grown (tables s) (tables s').
Proof.
  intros Hstep Hidle.
  destruct (step_connections s s' Hstep Hidle) as [_ Hconn].
  destruct (step_rest s s' Hstep Hidle) as (Hposts & Hcomments & _).
  split; [|split].
  - destruct Hconn as [E|[(r & a & msg & _ & E)|(now & k & st & E)]];
      rewrite E.
    + exists []. rewrite app_nil_r. reflexivity.
    + rewrite map_app. eauto.
    + exists []. rewrite app_nil_r, map_map. apply map_ext.
      intros c. apply identity_update.
  - destruct Hposts as [E|(u & text & E)]; rewrite E;
      [exists []; rewrite app_nil_r; reflexivity | eauto].
  - destruct Hcomments as [E|(u & p & text & E)]; rewrite E;
      [exists []; rewrite app_nil_r; reflexivity | eauto].
Qed.

(** X6. The service never deletes a connection, a post or a comment, and
    never rewrites one but for the status of a connection: after any run of
    calls the posts and the comments are the old ones followed by new ones,
    and so are the connections as to their key, requester, addressee,
    message and time of creation. *)
Theorem X6_records_only_added (s s' : Session) :
  steps s s' -> pending s = [] -> grown (tables s) (tables s').
Proof.
  intros Hsteps Hidle.
  assert (G : forall a b, steps a b -> pending a = [] ->
                          grown (tables a) (tables b)).
  { induction 1 as [|s1 s2 s3 H12 IH H23]; intros H1;
      [apply grown_refl|].
    eapply grown_trans; [apply IH; exact H1|].
    apply grown_step; [exact H23 | eapply steps_idle; eassumption]. }
  exact (G s s' Hsteps Hidle).
Qed.

Lemma run_accept_decline : steps session_1_to_2 session_1_2_declined.
Proof.
  apply steps_cons with (s2 := session_1_2_accepted);
    [|apply (step_respond_to_connection 1 2 false)].
  apply steps_cons with (s2 := session_1_to_2); [apply steps_refl|].
  apply (step_respond_to_connection 1 2 true).
Qed.

Lemma X6_records_only_added_witness :
  grown (tables session_1_to_2) (tables session_1_2_declined)
  /\ grown (tables fresh_session) (tables liked_session).
Proof.
  split.
  - apply (X6_records_only_added session_1_to_2 session_1_2_declined
             run_accept_decline eq_refl).
  - apply (X6_records_only_added fresh_session liked_session
             run_to_liked eq_refl).
Defined.

(** ** What the queries return, whatever the backend does *)

Lemma get_pending_requests_sound u s l :
  fst (get_pending_requests u s) = Ok l ->
  forall r, In r l -> In r (filter (pending_for u) (connections (tables s))).
Proof.
  unfold_py. simpl. destruct (hd false (faults s)); simpl; intros E;
    injection E as <-; [intros r []|auto].
Qed.

Lemma get_user_connections_sound u s l :
  fst (get_user_connections u s) = Ok l ->
  forall r, In r l -> In r (filter (accepted_for u) (connections (tables s))).
Proof.
  unfold_py. simpl. destruct (hd false (faults s)); simpl; intros E;
    injection E as <-; [intros r []|auto].
Qed.

Lemma get_feed_sound u sk lim s l :
  fst (get_feed u sk lim s) = Ok l ->
  forall p, In p l ->
            In p (posts (tables s))
            /\ in_audience u (tables s) (Post.user_id p).
Proof.
  unfold_py. simpl.
  destruct (hd false (faults s)); simpl;
    destruct (hd false (tl (faults s))); simpl; intros E;
    injection E as <-; intros p Hp; try contradiction.
  - apply limit_In, offset_In, order_by_desc_In, filter_In in Hp.
    destruct Hp as [Hin Hm]. split; [exact Hin|].
    unfold mem in Hm. simpl in Hm. rewrite orb_false_r in Hm.
    apply Z.eqb_eq in Hm. left. exact Hm.
  - apply (feed_query_In u sk lim (tables s) p Hp).
Qed.

Lemma feed_query_complete u sk lim t p :
  sk <= 0 ->
  lim < 0 \/ Z.of_nat (List.length (audience_posts u t)) <= lim ->
  In p (posts t) -> mem (Post.user_id p) (audience_ids u t) = true ->
  In p (feed_query u sk lim t).
Proof.
  intros Hsk Hlim Hin Hm. rewrite feed_query_uncut by assumption.
  apply order_by_desc_In, filter_In. auto.
Qed.

(** ** The life of a request *)

(** After a request of A to B and the answer of B, the records between the
    two are the one record of the request, with the status of the answer. *)
Lemma answered_request A B msg s c s1 acc c' s2 :
  pending s = [] ->
  send_connection_request A (ConnectionCreate.mk B msg) s
  = (Ok (Some c), s1) ->
  respond_to_connection (Connection.id c) B acc s1 = (Ok (Some c'), s2) ->
  filter (between A B) (connections (tables s2)) = [c']
  /\ Connection.id c' = Connection.id c
  /\ Connection.requester_id c' = A
  /\ Connection.addressee_id c' = B
  /\ Connection.status c' = (if acc then ACCEPTED else DECLINED).
Proof.
  intros Hidle Hsend Hrespond.
  destruct (send_success_inv _ _ _ _ _ Hidle Hsend)
    as (Hnone & Hc & Ht1 & Hp1). simpl in Hnone, Hc.
  destruct (respond_success_inv _ _ _ _ _ _ Hp1 Hrespond)
    as (c0 & Hfind & Hu & Hc' & Ht2).
  assert (Hc0 : c0 = c).
  { rewrite Ht1 in Hfind. simpl in Hfind.
    assert (Hk : Connection.id c
                 = new_id (map Connection.id (connections (tables s))))
      by (rewrite Hc; reflexivity).
    rewrite Hk, (find_new_row Connection.id) in Hfind by exact Hk.
    congruence. }
  subst c0.
  destruct (update_status_ends (clock s1) (Connection.id c)
              (if acc then ACCEPTED else DECLINED) c) as [Hr Ha].
  rewrite <- Hc' in Hr, Ha.
  split.
  - rewrite Ht2, Ht1. simpl.
    rewrite filter_between_update, filter_app, Hnone. simpl.
    assert (Hb : between A B c = true).
    { rewrite Hc. unfold between. simpl. rewrite !Z.eqb_refl. reflexivity. }
    rewrite Hb. simpl. rewrite Hc'. reflexivity.
  - split; [rewrite Hc'; apply update_status_id|].
    split; [rewrite Hr, Hc; reflexivity|].
    split; [rewrite Ha, Hc; reflexivity|].
    rewrite Hc'. apply update_status_hit.
Qed.

(** X7. A request that has been sent shows among the pending requests of
    its addressee, not among those of its requester, and no longer shows
    once the addressee has answered it, by accepting or by declining. *)
Theorem X7_request_pending_until_answered (A B : Z) (msg : option string)
    (s s1 : Session) (c : Connection.t) :
  pending s = [] ->
  send_connection_request A (ConnectionCreate.mk B msg) s
  = (Ok (Some c), s1) ->
  (forall s',
      tables s' = tables s1 -> hd false (faults s') = false ->
      exists l, fst (get_pending_requests B s') = Ok l /\ In c l)
  /\ (A <> B ->
      forall s' l,
        tables s' = tables s1 ->
        fst (get_pending_requests A s') = Ok l -> ~ In c l)
  /\ (forall acc c' s2 s' l r,
        respond_to_connection (Connection.id c) B acc s1
        = (Ok (Some c'), s2) ->
        tables s' = tables s2 ->
        fst (get_pending_requests B s') = Ok l ->
        In r l -> Connection.id r <> Connection.id c).
Proof.
  intros Hidle Hsend.
  destruct (send_success_inv _ _ _ _ _ Hidle Hsend)
    as (_ & Hc & Ht1 & Hp1). simpl in Hc.
  split; [|split].
  - intros s' Ht Hcalm. eexists.
    split; [apply get_pending_requests_rows; exact Hcalm|].
    rewrite Ht, Ht1. simpl. apply filter_In. split.
    + apply in_or_app. right. left. reflexivity.
    + rewrite Hc. unfold pending_for. simpl. rewrite Z.eqb_refl. reflexivity.
  - intros Hne s' l Ht Hl Hin.
    apply (get_pending_requests_sound _ _ _ Hl), filter_In in Hin.
    destruct Hin as [_ Hin]. unfold pending_for in Hin.
    apply andb_true_iff in Hin. destruct Hin as [Hin _].
    apply Z.eqb_eq in Hin. rewrite Hc in Hin. simpl in Hin. congruence.
  - intros acc c' s2 s' l r Hrespond Ht Hl Hin Hid.
    destruct (respond_success_inv _ _ _ _ _ _ Hp1 Hrespond)
      as (_ & _ & _ & _ & Ht2).
    apply (get_pending_requests_sound _ _ _ Hl), filter_In in Hin.
    destruct Hin as [Hin Hpend]. rewrite Ht, Ht2 in Hin. simpl in Hin.
    apply in_map_iff in Hin. destruct Hin as (x & Hx & _).
    unfold pending_for in Hpend. apply andb_true_iff in Hpend.
    destruct Hpend as [_ Hst]. apply status_eqb_eq in Hst.
    assert (Hxid : Connection.id x = Connection.id c)
      by (rewrite <- Hid, <- Hx; symmetry; apply update_status_id).
    rewrite <- Hx, <- Hxid, update_status_hit in Hst.
    destruct acc; discriminate.
Qed.

(** User 3 asks user 2, then user 1 asks user 2, and user 2 accepts the
    request of user 1. *)
Definition session_3_to_2 : Session := Eval vm_compute in
  after (send_connection_request 3 (ConnectionCreate.mk 2 None)) fresh_session.

Definition session_3_1_to_2 : Session := Eval vm_compute in
  after (send_connection_request 1 (ConnectionCreate.mk 2 None)) session_3_to_2.

Definition session_3_1_to_2_answered : Session := Eval vm_compute in
  after (respond_to_connection 2 2 true) session_3_1_to_2.

Lemma X7_request_pending_until_answered_witness :
  (exists l,
      fst (get_pending_requests 2 session_3_1_to_2) = Ok l
      /\ In (Connection.mk 2 1 2 PENDING None 0 0) l)
  /\ ~ In (Connection.mk 2 1 2 PENDING None 0 0)
        (filter (pending_for 1) (connections (tables session_3_1_to_2)))
  /\ Connection.id (Connection.mk 1 3 2 PENDING None 0 0) <> 2.
Proof.
  destruct (X7_request_pending_until_answered 1 2 None session_3_to_2
              session_3_1_to_2 (Connection.mk 2 1 2 PENDING None 0 0)
              eq_refl eq_refl) as (H1 & H2 & H3).
  split; [exact (H1 session_3_1_to_2 eq_refl eq_refl)|]. split.
  - apply (H2 ltac:(lia) session_3_1_to_2 _ eq_refl eq_refl).
  - apply (H3 true (Connection.mk 2 1 2 ACCEPTED None 0 0)
             session_3_1_to_2_answered session_3_1_to_2_answered
             [Connection.mk 1 3 2 PENDING None 0 0]
             (Connection.mk 1 3 2 PENDING None 0 0)
             eq_refl eq_refl eq_refl).
    left. reflexivity.
Defined.

(** X8. A declined request connects nobody: after A has asked B and B has
    declined, and for as long as the connection records stay as they are,
    neither is in the audience of the other, and no post of B comes in a
    feed of A nor a post of A in a feed of B, whatever the page and however
    the backend behaves. *)
Theorem X8_declined_request_connects_nobody (A B : Z) (msg : option string)
    (s s1 s2 : Session) (c c' : Connection.t) :
  A <> B ->
  pending s = [] ->
  send_connection_request A (ConnectionCreate.mk B msg) s
  = (Ok (Some c), s1) ->
  respond_to_connection (Connection.id c) B false s1 = (Ok (Some c'), s2) ->
  forall s3,
    connections (tables s3) = connections (tables s2) ->
    mem B (audience_ids A (tables s3)) = false
    /\ mem A (audience_ids B (tables s3)) = false
    /\ (forall sk lim l p,
          fst (get_feed A sk lim s3) = Ok l -> In p l -> Post.user_id p <> B)
    /\ (forall sk lim l p,
          fst (get_feed B sk lim s3) = Ok l -> In p l -> Post.user_id p <> A).
Proof.
  intros Hne Hidle Hsend Hrespond s3 Hconn.
  destruct (answered_request _ _ _ _ _ _ _ _ _ Hidle Hsend Hrespond)
    as (Hrows & _ & _ & _ & Hst).
  assert (Hout : forall u v, (u = A /\ v = B) \/ (u = B /\ v = A) ->
                             ~ in_audience u (tables s3) v).
  { intros u v Huv [E|(r & Hr & Hacc & Hends)].
    - destruct Huv as [[-> ->]|[-> ->]]; congruence.
    - assert (Hin : In r (filter (between A B) (connections (tables s2)))).
      { apply filter_In. rewrite <- Hconn. split; [exact Hr|].
        unfold between.
        destruct Huv as [[-> ->]|[-> ->]];
          destruct Hends as [[-> ->]|[-> ->]];
          rewrite !Z.eqb_refl; simpl; rewrite ?orb_true_r; reflexivity. }
      rewrite Hrows in Hin. destruct Hin as [<-|[]]. congruence. }
  assert (Hmem : forall u v, (u = A /\ v = B) \/ (u = B /\ v = A) ->
                             mem v (audience_ids u (tables s3)) = false).
  { intros u v Huv. destruct (mem v (audience_ids u (tables s3))) eqn:E;
      [|reflexivity].
    apply audience_ids_spec in E. exfalso. exact (Hout u v Huv E). }
  split; [apply Hmem; auto|]. split; [apply Hmem; auto|]. split.
  - intros sk lim l p Hl Hp E.
    destruct (get_feed_sound _ _ _ _ _ Hl p Hp) as [_ Haud].
    rewrite E in Haud. exact (Hout A B (or_introl (conj eq_refl eq_refl)) Haud).
  - intros sk lim l p Hl Hp E.
    destruct (get_feed_sound _ _ _ _ _ Hl p Hp) as [_ Haud].
    rewrite E in Haud. exact (Hout B A (or_intror (conj eq_refl eq_refl)) Haud).
Qed.

(** User 1 asks user 2 and user 2 declines; user 2 posts all the same. *)
Definition session_1_2_refused : Session := Eval vm_compute in
  after (respond_to_connection 1 2 false) session_1_to_2.

Definition refused_hello_session : Session := Eval vm_compute in
  after (create_post 2 (PostCreate.mk "hello")) session_1_2_refused.

Lemma X8_declined_request_connects_nobody_witness :
  mem 2 (audience_ids 1 (tables refused_hello_session)) = false
  /\ ~ In (Post.mk 1 2 "hello" None 0 0) (feed_query 1 0 20
                                           (tables refused_hello_session)).
Proof.
  destruct (X8_declined_request_connects_nobody 1 2 None fresh_session
              session_1_to_2 session_1_2_refused
              (Connection.mk 1 1 2 PENDING None 0 0)
              (Connection.mk 1 1 2 DECLINED None 0 0)
              ltac:(lia) eq_refl eq_refl eq_refl
              refused_hello_session eq_refl) as (H1 & _ & H3 & _).
  split; [exact H1|]. intros Hin.
  apply (H3 0 20 _ _ (get_feed_rows 1 0 20 refused_hello_session eq_refl)
           Hin).
  reflexivity.
Defined.

(** X9. An accepted request connects both ways: after A has asked B and B
    has accepted, the accepted record is in the table, and for as long as
    it is there, whatever else the tables hold, each is in the audience of
    the other, and a feed of A from the top whose limit covers the posts of
    the audience of A holds every post of B, such a feed of B every post of
    A (the backend answering). *)
Theorem X9_accepted_request_connects_both (A B : Z) (msg : option string)
    (s s1 s2 : Session) (c c' : Connection.t) :
  pending s = [] ->
  send_connection_request A (ConnectionCreate.mk B msg) s
  = (Ok (Some c), s1) ->
  respond_to_connection (Connection.id c) B true s1 = (Ok (Some c'), s2) ->
  In c' (connections (tables s2))
  /\ forall s3,
    In c' (connections (tables s3)) ->
    mem B (audience_ids A (tables s3)) = true
    /\ mem A (audience_ids B (tables s3)) = true
    /\ (calm 2 s3 ->
        forall sk lim p,
          sk <= 0 ->
          In p (posts (tables s3)) ->
          (Post.user_id p = B ->
           lim < 0
           \/ Z.of_nat (List.length (audience_posts A (tables s3))) <= lim ->
           exists l, fst (get_feed A sk lim s3) = Ok l /\ In p l)
          /\ (Post.user_id p = A ->
              lim < 0
              \/ Z.of_nat (List.length (audience_posts B (tables s3)))
                 <= lim ->
              exists l, fst (get_feed B sk lim s3) = Ok l /\ In p l)).
Proof.
  intros Hidle Hsend Hrespond.
  destruct (answered_request _ _ _ _ _ _ _ _ _ Hidle Hsend Hrespond)
    as (Hrows & _ & Hr & Ha & Hst).
  split.
  { assert (H : In c' (filter (between A B) (connections (tables s2))))
      by (rewrite Hrows; left; reflexivity).
    apply filter_In in H. apply H. }
  intros s3 Hin.
  assert (HAB : mem B (audience_ids A (tables s3)) = true).
  { apply audience_ids_spec. right. exists c'. auto. }
  assert (HBA : mem A (audience_ids B (tables s3)) = true).
  { apply audience_ids_spec. right. exists c'. auto. }
  split; [exact HAB|]. split; [exact HBA|].
  intros Hcalm sk lim p Hsk Hp. split; intros Hu Hlim.
  - exists (feed_query A sk lim (tables s3)).
    split; [apply get_feed_rows; exact Hcalm|].
    apply feed_query_complete; auto. rewrite Hu. exact HAB.
  - exists (feed_query B sk lim (tables s3)).
    split; [apply get_feed_rows; exact Hcalm|].
    apply feed_query_complete; auto. rewrite Hu. exact HBA.
Qed.

(** User 1 asks user 2 and user 2 accepts; user 2 posts. *)
Definition accepted_hello_session : Session := Eval vm_compute in
  after (create_post 2 (PostCreate.mk "hello")) session_1_2_accepted.

(** Users 4 and 3, connected to nobody, post after that. *)
Definition crowded_hello_session : Session := Eval vm_compute in
  after (create_post 3 (PostCreate.mk "three"))
    (after (create_post 4 (PostCreate.mk "four")) accepted_hello_session).

Lemma X9_accepted_request_connects_both_witness :
  List.length (posts (tables crowded_hello_session)) = 3%nat
  /\ mem 2 (audience_ids 1 (tables crowded_hello_session)) = true
  /\ exists l,
       fst (get_feed 1 0 1 crowded_hello_session) = Ok l
       /\ In (Post.mk 1 2 "hello" None 0 0) l.
Proof.
  destruct (X9_accepted_request_connects_both 1 2 None fresh_session
              session_1_to_2 session_1_2_accepted
              (Connection.mk 1 1 2 PENDING None 0 0)
              (Connection.mk 1 1 2 ACCEPTED None 0 0)
              eq_refl eq_refl eq_refl) as [_ Hlater].
  destruct (Hlater crowded_hello_session (or_introl eq_refl))
    as (H1 & _ & H3).
  split; [reflexivity|]. split; [exact H1|].
  refine (proj1 (H3 eq_refl 0 1 (Post.mk 1 2 "hello" None 0 0) _ _)
            eq_refl _).
  - lia.
  - simpl. auto.
  - right. simpl. lia.
Defined.

(** ** Audiences and pages *)

(** X10. Being in the audience is mutual: B is among the ids [get_feed]
    collects for A exactly when A is among those it collects for B, on any
    connection records. *)
Theorem X10_audience_is_mutual (A B : Z) (t : Tables) :
  mem B (audience_ids A t) = mem A (audience_ids B t).
Proof.
  assert (H : forall u v, in_audience u t v -> in_audience v t u).
  { intros u v [->|(c & Hc & Hst & Hends)]; [left; reflexivity|].
    right. exists c. split; [exact Hc|]. split; [exact Hst|]. tauto. }
  apply eq_true_iff_eq. rewrite !audience_ids_spec. split; apply H.
Qed.

Lemma own_posts_filter u (l : list Post.t) :
  filter (fun p => mem (Post.user_id p) ([] ++ [u])) l
  = filter (fun p => Post.user_id p =? u) l.
Proof.
  apply filter_ext. intros p. unfold mem. simpl. apply orb_false_r.
Qed.

(** The rows [get_user_posts] asks for. *)
Definition user_posts_query (u sk lim : Z) (t : Tables) : list Post.t :=
  limit lim (offset sk
    (order_by_desc Post.created_at
       (filter (fun p => Post.user_id p =? u) (posts t)))).

Lemma get_user_posts_rows u sk lim s :
  hd false (faults s) = false ->
  fst (get_user_posts u sk lim s) = Ok (user_posts_query u sk lim (tables s)).
Proof. intros H. unfold_py. simpl. rewrite H. reflexivity. Qed.

(** X11. When the lookup of the connections fails and the query of the
    posts is answered, [get_feed] does not fail: it returns the page of the
    user's own posts, as [get_user_posts] would, and the failure is left in
    the log.  When the query of the posts fails the feed is empty.  The
    tables are untouched either way. *)
Theorem X11_feed_when_the_backend_fails (u sk lim : Z) (s : Session) :
  (hd false (faults s) = true -> hd false (tl (faults s)) = false ->
   fst (get_feed u sk lim s) = Ok (user_posts_query u sk lim (tables s))
   /\ log (snd (get_feed u sk lim s))
      = (ERROR, error_getting_connections u OperationalError) :: log s)
  /\ (hd false (tl (faults s)) = true ->
      fst (get_feed u sk lim s) = Ok [])
  /\ tables (snd (get_feed u sk lim s)) = tables s.
Proof.
  split; [|split].
  - intros H1 H2. unfold_py. simpl. rewrite H1. simpl. rewrite H2. simpl.
    unfold user_posts_query. rewrite <- own_posts_filter. auto.
  - intros H2. unfold_py. simpl.
    destruct (hd false (faults s)); simpl; rewrite H2; reflexivity.
  - apply get_feed_reads.
Qed.

(** Users 1 and 2 are connected and both have posted. *)
Definition both_posted_session : Session := Eval vm_compute in
  after (create_post 1 (PostCreate.mk "mine")) accepted_hello_session.

Lemma X11_feed_when_the_backend_fails_witness :
  fst (get_feed 1 0 20 both_posted_session)
  = Ok [Post.mk 1 2 "hello" None 0 0; Post.mk 2 1 "mine" None 0 0]
  /\ fst (get_feed 1 0 20 (set_faults [true; false] both_posted_session))
     = Ok [Post.mk 2 1 "mine" None 0 0]
  /\ fst (get_feed 1 0 20 (set_faults [false; true] both_posted_session))
     = Ok [].
Proof.
  split; [reflexivity|]. split.
  - apply (proj1 (X11_feed_when_the_backend_fails 1 0 20
                    (set_faults [true; false] both_posted_session)));
      reflexivity.
  - apply (proj1 (proj2 (X11_feed_when_the_backend_fails 1 0 20
                    (set_faults [false; true] both_posted_session)))).
    reflexivity.
Defined.

Lemma limit_length {A} n (l : list A) :
  0 <= n -> (List.length (limit n l) <= Z.to_nat n)%nat.
Proof.
  intros H. unfold limit. destruct (Z.ltb_spec n 0); [lia|].
  rewrite length_firstn. lia.
Qed.

(** X12. A page is never longer than its limit: with [limit >= 0],
    [get_feed] and [get_user_posts] return at most [limit] posts, on any
    session. *)
Theorem X12_page_within_limit (u sk lim : Z) (s : Session) :
  0 <= lim ->
  (forall l, fst (get_feed u sk lim s) = Ok l ->
             (List.length l <= Z.to_nat lim)%nat)
  /\ (forall l, fst (get_user_posts u sk lim s) = Ok l ->
                (List.length l <= Z.to_nat lim)%nat).
Proof.
  intros Hlim. split; intros l; unfold_py; simpl.
  - destruct (hd false (faults s)); simpl;
      destruct (hd false (tl (faults s))); simpl; intros E;
      injection E as <-; simpl; try lia; apply limit_length; exact Hlim.
  - destruct (hd false (faults s)); simpl; intros E;
      injection E as <-; simpl; try lia; apply limit_length; exact Hlim.
Qed.

Lemma X12_page_within_limit_witness :
  (List.length (feed_query 1 0 3 (tables seven_posts_session)) <= 3)%nat.
Proof.
  apply (proj1 (X12_page_within_limit 1 0 3 seven_posts_session
                  ltac:(lia))
           (feed_query 1 0 3 (tables seven_posts_session))).
  reflexivity.
Defined.

(** X13. A user without accepted connections reads their own posts: the
    backend answering, [get_feed] returns for them the very page
    [get_user_posts] returns. *)
Theorem X13_feed_of_the_unconnected (u sk lim : Z) (s : Session) :
  calm 2 s ->
  filter (accepted_for u) (connections (tables s)) = [] ->
  fst (get_feed u sk lim s) = fst (get_user_posts u sk lim s).
Proof.
  intros Hcalm Hnone.
  rewrite get_feed_rows by exact Hcalm.
  rewrite get_user_posts_rows
    by (unfold calm in Hcalm; destruct (faults s) as [|[] f];
        simpl in *; congruence).
  unfold feed_query, audience_ids, user_posts_query.
  rewrite Hnone. simpl. rewrite <- own_posts_filter. reflexivity.
Qed.

Lemma X13_feed_of_the_unconnected_witness :
  fst (get_feed 1 1 3 seven_posts_session)
  = fst (get_user_posts 1 1 3 seven_posts_session).
Proof.
  apply (X13_feed_of_the_unconnected 1 1 3 seven_posts_session);
    reflexivity.
Defined.

(** ** Posts *)

Lemma user_posts_query_In u sk lim t p :
  In p (user_posts_query u sk lim t) -> In p (posts t) /\ Post.user_id p = u.
Proof.
  unfold user_posts_query. intros H.
  apply limit_In, offset_In, order_by_desc_In, filter_In in H.
  destruct H as [Hin Hu]. apply Z.eqb_eq in Hu. auto.
Qed.

Lemma user_posts_query_uncut u sk lim t :
  sk <= 0 ->
  lim < 0
  \/ Z.of_nat (List.length (filter (fun p => Post.user_id p =? u) (posts t)))
     <= lim ->
  user_posts_query u sk lim t
  = order_by_desc Post.created_at
      (filter (fun p => Post.user_id p =? u) (posts t)).
Proof.
  intros Hsk Hlim. unfold user_posts_query.
  apply page_uncut; [exact Hsk|].
  rewrite <- (Permutation_length (order_by_desc_perm _ _)). exact Hlim.
Qed.

(** X14. [get_user_posts(U)] returns posts of U only, newest first, on any
    session; the backend answering, it returns the page, from the offset
    and of at most the limit, of the posts of U, and a page from the top
    whose limit covers the posts of U holds exactly these. *)
Theorem X14_user_posts (U sk lim : Z) (s : Session) :
  exists l,
    fst (get_user_posts U sk lim s) = Ok l
    /\ (forall p, In p l -> In p (posts (tables s)) /\ Post.user_id p = U)
    /\ StronglySorted (key_desc Post.created_at) l
    /\ (hd false (faults s) = false ->
        (exists full,
            Permutation full
              (filter (fun p => Post.user_id p =? U) (posts (tables s)))
            /\ l = limit lim (offset sk full))
        /\ (sk <= 0 ->
            lim < 0
            \/ Z.of_nat (List.length
                           (filter (fun p => Post.user_id p =? U)
                              (posts (tables s)))) <= lim ->
            Permutation l
              (filter (fun p => Post.user_id p =? U) (posts (tables s)))
            /\ forall p, In p (posts (tables s)) -> Post.user_id p = U ->
                         In p l)).
Proof.
  destruct (hd false (faults s)) eqn:Hf.
  - exists []. split; [unfold_py; simpl; rewrite Hf; reflexivity|].
    split; [intros p []|]. split; [constructor|]. discriminate.
  - exists (user_posts_query U sk lim (tables s)).
    split; [apply get_user_posts_rows; exact Hf|].
    split; [intros p; apply user_posts_query_In|].
    split; [apply sorted_page, order_by_desc_sorted|].
    intros _. split.
    + exists (order_by_desc Post.created_at
                (filter (fun p => Post.user_id p =? U) (posts (tables s)))).
      split; [apply Permutation_sym, order_by_desc_perm | reflexivity].
    + intros Hsk Hlim. rewrite user_posts_query_uncut by assumption.
      split; [apply Permutation_sym, order_by_desc_perm|].
      intros p Hin Hu. apply order_by_desc_In, filter_In.
      split; [exact Hin|]. apply Z.eqb_eq. exact Hu.
Qed.

Lemma X14_user_posts_witness :
  List.length (posts (tables crowded_hello_session)) = 3%nat
  /\ exists l,
       fst (get_user_posts 2 0 1 crowded_hello_session) = Ok l
       /\ In (Post.mk 1 2 "hello" None 0 0) l
       /\ ~ In (Post.mk 2 4 "four" None 0 0) l.
Proof.
  split; [reflexivity|].
  destruct (X14_user_posts 2 0 1 crowded_hello_session)
    as (l & Hl & Hsound & _ & Hall).
  exists l. split; [exact Hl|]. split.
  - destruct (Hall eq_refl) as [_ Huncut].
    apply Huncut; [lia | right; simpl; lia | simpl; auto | reflexivity].
  - intros Hin. apply Hsound in Hin. destruct Hin as [_ Hu].
    discriminate Hu.
Defined.

Lemma create_post_inserts u pc s :
  pending s = [] -> calm 2 s ->
  references (foreign_keys s) u (users (tables s)) = true ->
  fst (create_post u pc s) = Ok (Some (new_post s u (PostCreate.content pc)))
  /\ tables (snd (create_post u pc s))
     = with_posts (posts (tables s) ++ [new_post s u (PostCreate.content pc)])
         (tables s).
Proof.
  intros Hidle Hcalm Hu. unfold_py. simpl. unfold calm in Hcalm.
  destruct (faults s) as [|[] [|[] f]]; simpl in Hcalm; try discriminate;
    simpl; rewrite Hidle; simpl; rewrite Hu; simpl;
    rewrite (find_new_row Post.id) by reflexivity; simpl; auto.
Qed.

(** A post that is stored stays stored, whatever is called next. *)
Lemma posts_kept_steps s s' p :
  steps s s' -> pending s = [] ->
  In p (posts (tables s)) -> In p (posts (tables s')).
Proof.
  intros Hsteps Hidle Hin.
  apply (steps_invariant (fun x => In p (posts (tables x)))
           (fun a b Hstep Ha Hp =>
              match grown_step a b Hstep Ha with
              | conj _ (conj (ex_intro _ l E) _) =>
                  eq_ind_r (In p) (in_or_app _ l p (or_introl Hp)) E
              end)
           s s' Hsteps Hidle Hin).
Qed.

(** X15. A post that has been created is there to be read: on a working
    store [create_post(U, content)] returns the post, of author U, with the
    content as given and a key no post had; the post is stored after the
    others, and after any calls of the service that follow it is still
    stored, and (the backend answering) a page of [get_user_posts(U)] from
    the top whose limit covers the posts of U holds it, and so does a feed
    of U from the top whose limit covers the posts of the audience of U. *)
Theorem X15_created_post_is_read (U : Z) (pc : PostCreate.t) (s : Session) :
  pending s = [] -> calm 2 s ->
  references (foreign_keys s) U (users (tables s)) = true ->
  exists p,
    fst (create_post U pc s) = Ok (Some p)
    /\ Post.user_id p = U
    /\ Post.content p = PostCreate.content pc
    /\ ~ In (Post.id p) (map Post.id (posts (tables s)))
    /\ posts (tables (snd (create_post U pc s))) = posts (tables s) ++ [p]
    /\ forall s' sk lim,
         steps (snd (create_post U pc s)) s' ->
         In p (posts (tables s'))
         /\ (calm 2 s' -> sk <= 0 ->
             (lim < 0
              \/ Z.of_nat (List.length
                             (filter (fun q => Post.user_id q =? U)
                                (posts (tables s')))) <= lim ->
              exists l, fst (get_user_posts U sk lim s') = Ok l /\ In p l)
             /\ (lim < 0
                 \/ Z.of_nat (List.length (audience_posts U (tables s')))
                    <= lim ->
                 exists l, fst (get_feed U sk lim s') = Ok l /\ In p l)).
Proof.
  intros Hidle Hcalm Hfk.
  destruct (create_post_inserts U pc s Hidle Hcalm Hfk) as [Hf Ht].
  destruct (create_post_cases U pc s Hidle) as [Hidle1 _].
  exists (new_post s U (PostCreate.content pc)).
  split; [exact Hf|]. split; [reflexivity|]. split; [reflexivity|].
  split.
  - intros Hin. apply new_id_fresh in Hin. simpl in Hin. lia.
  - split; [rewrite Ht; reflexivity|].
    intros s' sk lim Hsteps.
    assert (Hin : In (new_post s U (PostCreate.content pc))
                    (posts (tables s'))).
    { apply (posts_kept_steps _ _ _ Hsteps Hidle1).
      rewrite Ht. simpl. apply in_or_app. right. left. reflexivity. }
    split; [exact Hin|]. intros Hcalm' Hsk.
    assert (Hhd : hd false (faults s') = false)
      by (unfold calm in Hcalm'; destruct (faults s') as [|[] f];
          simpl in *; congruence).
    split; intros Hlim.
    + exists (user_posts_query U sk lim (tables s')).
      split; [apply get_user_posts_rows; exact Hhd|].
      rewrite user_posts_query_uncut by assumption.
      apply order_by_desc_In, filter_In. split; [exact Hin|].
      simpl. apply Z.eqb_refl.
    + exists (feed_query U sk lim (tables s')).
      split; [apply get_feed_rows; exact Hcalm'|].
      apply feed_query_complete; auto.
      apply audience_ids_spec. left. reflexivity.
Qed.

(** Users 1 and 2 have posted; then user 3 posts and user 1 likes it. *)
Definition later_session : Session := Eval vm_compute in
  after (like_post 1 3)
    (after (create_post 3 (PostCreate.mk "three")) both_posted_session).

Lemma run_to_later :
  steps (snd (create_post 1 (PostCreate.mk "mine") accepted_hello_session))
    later_session.
Proof.
  apply (steps_cons _
           (snd (create_post 3 (PostCreate.mk "three") both_posted_session))).
  - apply (steps_cons _ both_posted_session); [apply steps_refl|].
    exact (step_create_post 3 (PostCreate.mk "three") both_posted_session).
  - exact (step_like_post 1 3
             (after (create_post 3 (PostCreate.mk "three"))
                both_posted_session)).
Qed.

Lemma X15_created_post_is_read_witness :
  List.length (posts (tables later_session)) = 3%nat
  /\ exists p,
       fst (create_post 1 (PostCreate.mk "mine") accepted_hello_session)
       = Ok (Some p)
       /\ Post.id p = 2
       /\ Post.content p = "mine"%string
       /\ (exists l, fst (get_user_posts 1 0 1 later_session) = Ok l
                     /\ In p l)
       /\ (exists l, fst (get_feed 1 0 2 later_session) = Ok l /\ In p l).
Proof.
  split; [reflexivity|].
  destruct (X15_created_post_is_read 1 (PostCreate.mk "mine")
              accepted_hello_session eq_refl eq_refl eq_refl)
    as (p & Hp & _ & Hcontent & _ & _ & Hlater).
  exists p. split; [exact Hp|].
  split; [simpl in Hp; injection Hp as <-; reflexivity|].
  split; [exact Hcontent|].
  destruct (Hlater later_session 0 1 run_to_later) as [_ H1].
  destruct (Hlater later_session 0 2 run_to_later) as [_ H2].
  split.
  - apply (H1 eq_refl); [lia | right; simpl; lia].
  - apply (H2 eq_refl); [lia | right; simpl; lia].
Defined.

(** ** A write whose read-back fails *)

(** Once one record connects [a] and [b], a request between the two, from
    either side, is refused, whatever has been called since. *)
Lemma one_record_refuses a b k s s' r cc :
  one_record a b k s -> steps s s' ->
  (r = a /\ ConnectionCreate.addressee_id cc = b)
  \/ (r = b /\ ConnectionCreate.addressee_id cc = a) ->
  fst (send_connection_request r cc s') = Ok None
  /\ tables (snd (send_connection_request r cc s')) = tables s'.
Proof.
  intros Hone Hsteps Hpair.
  destruct (one_record_steps a b k s s' Hsteps Hone) as [_ (c & Hc & _)].
  apply send_refused.
  destruct Hpair as [[-> ->]|[-> ->]];
    [|rewrite filter_between_sym]; rewrite Hc; discriminate.
Qed.

(** X16. [send_connection_request] can report a failure after it has
    stored the request: when the lookup and the commit are answered and the
    read-back of the new record ([refresh]) fails, the call returns [None]
    and the Pending record is in the table.  From then on, whatever is
    called in between and whatever the backend does, asking again, from
    either side, is refused as a duplicate and changes nothing. *)
Theorem X16_request_stored_yet_none (r : Z) (cc : ConnectionCreate.t)
    (s : Session) (f : list bool) :
  pending s = [] ->
  faults s = false :: false :: true :: f ->
  filter (between r (ConnectionCreate.addressee_id cc))
    (connections (tables s)) = [] ->
  references (foreign_keys s) r (users (tables s)) = true ->
  references (foreign_keys s) (ConnectionCreate.addressee_id cc)
    (users (tables s)) = true ->
  fst (send_connection_request r cc s) = Ok None
  /\ connections (tables (snd (send_connection_request r cc s)))
     = connections (tables s)
         ++ [new_connection s r (ConnectionCreate.addressee_id cc)
               (ConnectionCreate.message cc)]
  /\ forall s' r' cc',
       steps (snd (send_connection_request r cc s)) s' ->
       (r' = r
        /\ ConnectionCreate.addressee_id cc'
           = ConnectionCreate.addressee_id cc)
       \/ (r' = ConnectionCreate.addressee_id cc
           /\ ConnectionCreate.addressee_id cc' = r) ->
       fst (send_connection_request r' cc' s') = Ok None
       /\ tables (snd (send_connection_request r' cc' s')) = tables s'.
Proof.
  intros Hidle Hfaults Hnone Hr Ha.
  assert (Hrun : fst (send_connection_request r cc s) = Ok None
                 /\ connections
                      (tables (snd (send_connection_request r cc s)))
                    = connections (tables s)
                        ++ [new_connection s r
                              (ConnectionCreate.addressee_id cc)
                              (ConnectionCreate.message cc)]).
  { unfold_py. simpl. rewrite Hfaults. simpl.
    fold (between r (ConnectionCreate.addressee_id cc)).
    rewrite Hnone. simpl. rewrite Hidle. simpl. rewrite Hr, Ha. simpl.
    auto. }
  destruct Hrun as [Hf Ht]. split; [exact Hf|]. split; [exact Ht|].
  intros s' r' cc' Hsteps Hpair.
  apply (one_record_refuses r (ConnectionCreate.addressee_id cc)
           (Connection.id
              (new_connection s r (ConnectionCreate.addressee_id cc)
                 (ConnectionCreate.message cc)))
           (snd (send_connection_request r cc s)) s');
    [|exact Hsteps|exact Hpair].
  split.
  - destruct (send_cases r cc s Hidle) as [(_ & _ & H)|(_ & _ & _ & H)];
      exact H.
  - exists (new_connection s r (ConnectionCreate.addressee_id cc)
              (ConnectionCreate.message cc)).
    split; [|reflexivity].
    rewrite Ht, filter_app, Hnone. simpl.
    unfold between at 1. simpl. rewrite !Z.eqb_refl. reflexivity.
Qed.

(** User 1 asks user 2 and the read-back fails; user 2, who finds the
    request all the same, declines it. *)
Definition unread_request_session : Session := Eval vm_compute in
  after (send_connection_request 1 (ConnectionCreate.mk 2 None))
    (set_faults [false; false; true] fresh_session).

Definition unread_declined_session : Session := Eval vm_compute in
  after (respond_to_connection 1 2 false) unread_request_session.

Lemma run_to_unread_declined :
  steps (snd (send_connection_request 1 (ConnectionCreate.mk 2 None)
                (set_faults [false; false; true] fresh_session)))
    unread_declined_session.
Proof.
  apply (steps_cons _ unread_request_session); [apply steps_refl|].
  exact (step_respond_to_connection 1 2 false unread_request_session).
Qed.

Lemma X16_request_stored_yet_none_witness :
  fst (send_connection_request 1 (ConnectionCreate.mk 2 None)
         (set_faults [false; false; true] fresh_session)) = Ok None
  /\ connections
       (tables (snd (send_connection_request 1 (ConnectionCreate.mk 2 None)
                       (set_faults [false; false; true] fresh_session))))
     = [Connection.mk 1 1 2 PENDING None 0 0]
  /\ fst (send_connection_request 1 (ConnectionCreate.mk 2 None)
            unread_declined_session) = Ok None
  /\ fst (send_connection_request 2 (ConnectionCreate.mk 1 None)
            unread_declined_session) = Ok None.
Proof.
  destruct (X16_request_stored_yet_none 1 (ConnectionCreate.mk 2 None)
              (set_faults [false; false; true] fresh_session) []
              eq_refl eq_refl eq_refl eq_refl eq_refl) as (H1 & H2 & H3).
  split; [exact H1|]. split; [exact H2|]. split.
  - apply (H3 unread_declined_session 1 (ConnectionCreate.mk 2 None)
             run_to_unread_declined).
    left. split; reflexivity.
  - apply (H3 unread_declined_session 2 (ConnectionCreate.mk 1 None)
             run_to_unread_declined).
    right. split; reflexivity.
Defined.

(** X17. [like_post] likewise: when the read-back of a new Like fails the
    call returns [None] and the Like is stored.  A caller who takes the
    [None] for a failure and calls again removes the Like: on a working
    store the second call returns [None] too and the likes are what they
    were before the first. *)
Theorem X17_like_stored_yet_none (U P : Z) (s : Session) (f : list bool) :
  pending s = [] ->
  faults s = false :: false :: true :: f ->
  filter (like_of U P) (likes (tables s)) = [] ->
  references (foreign_keys s) P (map Post.id (posts (tables s))) = true ->
  references (foreign_keys s) U (users (tables s)) = true ->
  fst (like_post U P s) = Ok None
  /\ likes (tables (snd (like_post U P s)))
     = likes (tables s) ++ [new_like s U P]
  /\ forall s',
       tables s' = tables (snd (like_post U P s)) ->
       pending s' = [] -> calm 2 s' ->
       fst (like_post U P s') = Ok None
       /\ likes (tables (snd (like_post U P s'))) = likes (tables s).
Proof.
  intros Hidle Hfaults Hnone Hp Hu.
  assert (Hrun : fst (like_post U P s) = Ok None
                 /\ likes (tables (snd (like_post U P s)))
                    = likes (tables s) ++ [new_like s U P]).
  { unfold_py. simpl. rewrite Hfaults. simpl. fold (like_of U P).
    rewrite Hnone. simpl. rewrite Hidle. simpl. rewrite Hp, Hu. simpl.
    auto. }
  destruct Hrun as [Hf Ht]. split; [exact Hf|]. split; [exact Ht|].
  intros s' Hs' Hidle' Hcalm'.
  assert (Hrows : filter (like_of U P) (likes (tables s'))
                  = [new_like s U P]).
  { rewrite Hs', Ht, filter_app, Hnone. simpl.
    unfold like_of. simpl. rewrite !Z.eqb_refl. reflexivity. }
  destruct (like_deletes U P s' (new_like s U P) Hidle' Hcalm' Hrows)
    as (Hf' & Ht' & _).
  split; [exact Hf'|]. rewrite Ht'. unfold with_likes.
  cbn [likes users connections posts comments]. rewrite Hs', Ht.
  apply filter_out_new_like. reflexivity.
Qed.

Lemma X17_like_stored_yet_none_witness :
  fst (like_post 3 1 (set_faults [false; false; true] liked_session))
  = Ok None
  /\ likes (tables (snd (like_post 3 1
                           (set_faults [false; false; true] liked_session))))
     = [Like.mk 1 1 2 0; Like.mk 2 1 3 0].
Proof.
  destruct (X17_like_stored_yet_none 3 1
              (set_faults [false; false; true] liked_session) []
              eq_refl eq_refl eq_refl eq_refl eq_refl) as (H1 & H2 & _).
  split; [exact H1 | exact H2].
Defined.

(** ** Counts *)

Lemma comment_inserts u p cc s :
  pending s = [] -> calm 2 s ->
  references (foreign_keys s) p (map Post.id (posts (tables s))) = true ->
  references (foreign_keys s) u (users (tables s)) = true ->
  fst (comment_on_post u p cc s)
  = Ok (Some (new_comment s u p (CommentCreate.content cc)))
  /\ tables (snd (comment_on_post u p cc s))
     = with_comments
         (comments (tables s) ++ [new_comment s u p (CommentCreate.content cc)])
         (tables s).
Proof.
  intros Hidle Hcalm Hp Hu. unfold_py. simpl. unfold calm in Hcalm.
  destruct (faults s) as [|[] [|[] f]]; simpl in Hcalm; try discriminate;
    simpl; rewrite Hidle; simpl; rewrite Hp, Hu; simpl;
    rewrite (find_new_row Comment.id) by reflexivity; simpl; auto.
Qed.

(** X18. A comment counts once, on its post: on a working store
    [comment_on_post(U, P, content)] returns the comment, by U, on P, with
    the content as given, stored after the others; the comment count of a
    post with key P goes up by one, that of every other post and every like
    count stay. *)
Theorem X18_comment_counts_once (U P : Z) (cc : CommentCreate.t)
    (s : Session) :
  pending s = [] -> calm 2 s ->
  references (foreign_keys s) P (map Post.id (posts (tables s))) = true ->
  references (foreign_keys s) U (users (tables s)) = true ->
  exists c,
    fst (comment_on_post U P cc s) = Ok (Some c)
    /\ Comment.user_id c = U
    /\ Comment.post_id c = P
    /\ Comment.content c = CommentCreate.content cc
    /\ comments (tables (snd (comment_on_post U P cc s)))
       = comments (tables s) ++ [c]
    /\ forall q,
         comment_count (tables (snd (comment_on_post U P cc s))) q
         = comment_count (tables s) q + (if Post.id q =? P then 1 else 0)
         /\ like_count (tables (snd (comment_on_post U P cc s))) q
            = like_count (tables s) q.
Proof.
  intros Hidle Hcalm Hp Hu.
  destruct (comment_inserts U P cc s Hidle Hcalm Hp Hu) as [Hf Ht].
  exists (new_comment s U P (CommentCreate.content cc)).
  split; [exact Hf|]. split; [reflexivity|]. split; [reflexivity|].
  split; [reflexivity|]. split; [rewrite Ht; reflexivity|].
  intros q. rewrite Ht. split; [|reflexivity].
  unfold comment_count, Post_comments. simpl.
  rewrite filter_app, length_app. simpl. rewrite (Z.eqb_sym P).
  destruct (Post.id q =? P); simpl; lia.
Qed.

Lemma X18_comment_counts_once_witness :
  comment_count
    (tables (snd (comment_on_post 1 1 (CommentCreate.mk "nice")
                    accepted_hello_session)))
    (Post.mk 1 2 "hello" None 0 0) = 1.
Proof.
  destruct (X18_comment_counts_once 1 1 (CommentCreate.mk "nice")
              accepted_hello_session eq_refl eq_refl eq_refl eq_refl)
    as (c & _ & _ & _ & _ & _ & H).
  destruct (H (Post.mk 1 2 "hello" None 0 0)) as [H1 _].
  rewrite H1. reflexivity.
Defined.

Section Rows.

Context {A : Type}.
Variable key : A -> Z.

Lemma NoDup_key_inj (l : list A) (x y : A) :
  NoDup (map key l) -> In x l -> In y l -> key x = key y -> x = y.
Proof.
  induction l as [|z l IH]; simpl; [contradiction|].
  intros H Hx Hy E. inversion H as [|? ? Hz Hl]; subst.
  destruct Hx as [<-|Hx], Hy as [<-|Hy]; auto.
  - exfalso. apply Hz. rewrite E. apply in_map. exact Hy.
  - exfalso. apply Hz. rewrite <- E. apply in_map. exact Hx.
Qed.

(** Deleting by a key that belongs to one row takes that row away and no
    other. *)
Lemma delete_by_key_length (f : A -> bool) (l : list A) (x : A) :
  NoDup (map key l) -> In x l ->
  (List.length (filter f (filter (fun y => negb (key y =? key x)%Z) l))
   + (if f x then 1 else 0)
   = List.length (filter f l))%nat.
Proof.
  induction l as [|z l IH]; simpl; [contradiction|].
  intros H Hx. inversion H as [|? ? Hz Hl]; subst.
  destruct Hx as [->|Hx].
  - rewrite Z.eqb_refl. simpl.
    assert (E : filter (fun y => negb (key y =? key x)) l = l).
    { apply forallb_filter_id, forallb_forall. intros y Hy.
      apply negb_true_iff, Z.eqb_neq. intros Ey. apply Hz.
      rewrite <- Ey. apply in_map. exact Hy. }
    rewrite E. destruct (f x); simpl; lia.
  - assert (Hne : key z <> key x).
    { intros E. apply Hz. rewrite E. apply in_map. exact Hx. }
    apply Z.eqb_neq in Hne. rewrite Hne. simpl.
    specialize (IH Hl Hx). destruct (f z); simpl; lia.
Qed.

End Rows.

(** X19. [like_post(U, P)] moves one count by one: primary keys being
    unique, a call that returns the new Like raises the like count of a
    post with key P by one, a call that finds the Like of U lowers it by
    one or leaves it (when the commit fails), and no call changes the like
    count of a post with another key. *)
Theorem X19_like_moves_one_count (U P : Z) (s : Session) :
  pending s = [] ->
  NoDup (map Like.id (likes (tables s))) ->
  forall q,
    (Post.id q <> P ->
     like_count (tables (snd (like_post U P s))) q = like_count (tables s) q)
    /\ (Post.id q = P ->
        (forall l, fst (like_post U P s) = Ok (Some l) ->
                   like_count (tables (snd (like_post U P s))) q
                   = like_count (tables s) q + 1)
        /\ (filter (like_of U P) (likes (tables s)) <> [] ->
            like_count (tables (snd (like_post U P s))) q
            = like_count (tables s) q
            \/ like_count (tables (snd (like_post U P s))) q
               = like_count (tables s) q - 1)).
Proof.
  intros Hidle Hkeys q.
  destruct (like_cases U P s Hidle)
    as [_ [[Hf Ht]|[(Hnone & Hf & Ht)|(l0 & Hl0 & Hf & Ht)]]].
  - rewrite Ht. split; [reflexivity|]. intros _. split; [|auto].
    intros l Hl. rewrite Hl in Hf. discriminate.
  - rewrite Ht. unfold like_count, Post_likes. simpl.
    rewrite filter_app, length_app. simpl. split.
    + intros Hne. apply Z.eqb_neq in Hne. rewrite Z.eqb_sym, Hne. simpl. lia.
    + intros ->. rewrite Z.eqb_refl. simpl. split; [intros; lia|].
      intros Hsome. contradiction.
  - assert (Hin : In l0 (filter (like_of U P) (likes (tables s))))
      by (rewrite Hl0; left; reflexivity).
    apply filter_In in Hin. destruct Hin as [Hin Hlike].
    unfold like_of in Hlike. apply andb_true_iff in Hlike.
    destruct Hlike as [_ Hpost]. apply Z.eqb_eq in Hpost.
    pose proof (delete_by_key_length Like.id
                  (fun l => Like.post_id l =? Post.id q)
                  (likes (tables s)) l0 Hkeys Hin) as Hlen.
    cbv beta in Hlen.
    rewrite Ht. unfold like_count, Post_likes. simpl. rewrite Hpost in Hlen.
    split.
    + intros Hne. apply Z.eqb_neq in Hne. rewrite Z.eqb_sym, Hne in Hlen.
      lia.
    + intros E. rewrite E, Z.eqb_refl in Hlen. rewrite E. split.
      * intros l Hl. rewrite Hl in Hf. discriminate.
      * intros _. right. lia.
Qed.

Lemma X19_like_moves_one_count_witness :
  like_count (tables (snd (like_post 2 1 liked_session)))
    (Post.mk 1 1 "mine" None 0 0)
  = like_count (tables liked_session) (Post.mk 1 1 "mine" None 0 0)
  \/ like_count (tables (snd (like_post 2 1 liked_session)))
       (Post.mk 1 1 "mine" None 0 0)
     = like_count (tables liked_session) (Post.mk 1 1 "mine" None 0 0) - 1.
Proof.
  apply (X19_like_moves_one_count 2 1 liked_session eq_refl).
  - simpl. repeat constructor. simpl. tauto.
  - reflexivity.
  - simpl. discriminate.
Defined.

(** ** Rows that should not be there, rows that are not there *)

(** X20. Two Likes of one user on one post block the toggle: where the
    table holds more than one Like of U on P, [like_post(U, P)] neither
    adds nor removes, on any session; it returns [None], and when the
    lookup is answered what it logs is the error of [scalar_one_or_none]. *)
Theorem X20_double_like_blocks_toggle (U P : Z) (s : Session) :
  (2 <= List.length (filter (like_of U P) (likes (tables s))))%nat ->
  fst (like_post U P s) = Ok None
  /\ tables (snd (like_post U P s)) = tables s
  /\ (hd false (faults s) = false ->
      log (snd (like_post U P s))
      = (ERROR, error_liking_post P U MultipleResultsFound) :: log s).
Proof.
  intros Hrows. unfold_py. simpl.
  destruct (hd false (faults s)); simpl;
    [repeat split; intros; discriminate|].
  fold (like_of U P).
  destruct (filter (like_of U P) (likes (tables s))) as [|x [|y l]];
    simpl in Hrows; try lia.
  simpl. auto.
Qed.

(** User 2 likes post 1 twice over, as no run of the service leaves it. *)
Definition double_like_session : Session :=
  set_tables
    (with_likes [Like.mk 1 1 2 0; Like.mk 2 1 2 0] (tables own_post_session))
    own_post_session.

Lemma X20_double_like_blocks_toggle_witness :
  fst (like_post 2 1 double_like_session) = Ok None
  /\ likes (tables (snd (like_post 2 1 double_like_session)))
     = [Like.mk 1 1 2 0; Like.mk 2 1 2 0].
Proof.
  destruct (X20_double_like_blocks_toggle 2 1 double_like_session)
    as (H1 & H2 & _).
  - simpl. lia.
  - split; [exact H1|]. rewrite H2. reflexivity.
Defined.

(** X21. Where the backend enforces foreign keys, a write that names a
    user or a post that does not exist stores nothing and returns [None]:
    a request from or to an unknown user, a post by an unknown user, a Like
    (there being none yet) of an unknown user or on an unknown post. *)
Theorem X21_missing_rows_are_refused (s : Session) :
  foreign_keys s = true -> pending s = [] ->
  (forall r cc,
      ~ In r (users (tables s))
      \/ ~ In (ConnectionCreate.addressee_id cc) (users (tables s)) ->
      fst (send_connection_request r cc s) = Ok None
      /\ tables (snd (send_connection_request r cc s)) = tables s)
  /\ (forall u pc,
        ~ In u (users (tables s)) ->
        fst (create_post u pc s) = Ok None
        /\ tables (snd (create_post u pc s)) = tables s)
  /\ (forall u p,
        filter (like_of u p) (likes (tables s)) = [] ->
        ~ In u (users (tables s))
        \/ ~ In p (map Post.id (posts (tables s))) ->
        fst (like_post u p s) = Ok None
        /\ tables (snd (like_post u p s)) = tables s).
Proof.
  intros Hfk Hidle.
  assert (Hmiss : forall x l, ~ In x l -> references (foreign_keys s) x l
                                          = false).
  { intros x l H. unfold references. rewrite Hfk, (mem_false x l H).
    reflexivity. }
  split; [|split].
  - intros r cc Hmissing. unfold_py. simpl.
    destruct (hd false (faults s)); simpl; [auto|].
    destruct (filter _ _) as [|x [|y l]]; simpl; auto.
    destruct (hd false (tl (faults s))); simpl; [auto|].
    rewrite Hidle. simpl.
    destruct Hmissing as [H|H]; rewrite (Hmiss _ _ H);
      rewrite ?andb_false_r; simpl; auto.
  - intros u pc Hmissing. unfold_py. simpl.
    destruct (hd false (faults s)); simpl; [auto|].
    rewrite Hidle. simpl. rewrite (Hmiss _ _ Hmissing). simpl. auto.
  - intros u p Hnone Hmissing. unfold_py. simpl.
    destruct (hd false (faults s)); simpl; [auto|].
    fold (like_of u p). rewrite Hnone. simpl.
    destruct (hd false (tl (faults s))); simpl; [auto|].
    rewrite Hidle. simpl.
    destruct Hmissing as [H|H]; rewrite (Hmiss _ _ H);
      rewrite ?andb_false_r; simpl; auto.
Qed.

Lemma X21_missing_rows_are_refused_witness :
  fst (send_connection_request 1 (ConnectionCreate.mk 99 None) strict_session)
  = Ok None
  /\ fst (create_post 99 (PostCreate.mk "hi") strict_session) = Ok None
  /\ fst (like_post 1 99 strict_session) = Ok None.
Proof.
  destruct (X21_missing_rows_are_refused strict_session eq_refl eq_refl)
    as (H1 & H2 & H3).
  split; [|split].
  - apply (H1 1 (ConnectionCreate.mk 99 None)). right. simpl. lia.
  - apply (H2 99 (PostCreate.mk "hi")). simpl. lia.
  - apply (H3 1 99); [reflexivity|]. right. simpl. tauto.
Defined.

(** * app/main.py: what the pages make of the service *)

From Stdlib Require Import DecimalString ListSet.

(** ** time_ago

    A [datetime] is its count of microseconds, and the difference of two is
    the [timedelta] Python normalises: any number of days, then seconds
    within the day, then microseconds within the second. *)

Module Timedelta.
Record t : Set := mk { days : Z; seconds : Z; microseconds : Z }.
End Timedelta.

Definition datetime_sub (a b : Z) : Timedelta.t :=
  let d := a - b in
  Timedelta.mk (d / 86400000000) ((d mod 86400000000) / 1000000)
    (d mod 1000000).

(** [str(n)] of a Python [int]. *)
Definition str (n : Z) : string := NilZero.string_of_int (Z.to_int n).

(** [now] is what [datetime.now()] reads when the card is drawn. *)
Definition time_ago (now dt : Z) : string :=
  let diff := datetime_sub now dt in
  if Timedelta.days diff >? 0 then
    (str (Timedelta.days diff) ++ "d ago")%string
  else if Timedelta.seconds diff >? 3600 then
    let hours := Timedelta.seconds diff / 3600 in
    (str hours ++ "h ago")%string
  else if Timedelta.seconds diff >? 60 then
    let minutes := Timedelta.seconds diff / 60 in
    (str minutes ++ "m ago")%string
  else "Just now"%string.

Definition second : Z := 1000000.

(** X22. What [time_ago] shows, by the time elapsed: "Just now" up to and
    including the 60th second; minutes from 1 to 60 up to and including the
    3600th second, so that an hour sharp reads "60m ago"; hours from 1 to
    23 for the rest of the first day; days from then on.  A time up to 22
    hours 59 minutes ahead of the clock does not read as new: it shows as
    between 1 and 23 hours ago. *)
Theorem X22_time_ago_ranges (now dt : Z) :
  (0 <= now - dt < 61 * second -> time_ago now dt = "Just now"%string)
  /\ (61 * second <= now - dt < 3601 * second ->
      exists m, 1 <= m <= 60
                /\ m = (now - dt) / (60 * second)
                /\ time_ago now dt = (str m ++ "m ago")%string)
  /\ (3601 * second <= now - dt < 86400 * second ->
      exists h, 1 <= h <= 23
                /\ h = (now - dt) / (3600 * second)
                /\ time_ago now dt = (str h ++ "h ago")%string)
  /\ (86400 * second <= now - dt ->
      exists d, 1 <= d
                /\ d = (now - dt) / (86400 * second)
                /\ time_ago now dt = (str d ++ "d ago")%string)
  /\ (- (82799 * second) <= now - dt < 0 ->
      exists h, 1 <= h <= 23
                /\ time_ago now dt = (str h ++ "h ago")%string).
Proof.
  unfold time_ago, datetime_sub, second. cbn [Timedelta.days Timedelta.seconds].
  rewrite !Z.gtb_ltb.
  set (e := now - dt).
  split; [|split; [|split; [|split]]]; intros He.
  - destruct (Z.ltb_spec 0 (e / 86400000000)) as [H|_];
      [exfalso; Z.div_mod_to_equations; lia|].
    destruct (Z.ltb_spec 3600 (e mod 86400000000 / 1000000)) as [H|_];
      [exfalso; Z.div_mod_to_equations; lia|].
    destruct (Z.ltb_spec 60 (e mod 86400000000 / 1000000)) as [H|_];
      [exfalso; Z.div_mod_to_equations; lia|].
    reflexivity.
  - destruct (Z.ltb_spec 0 (e / 86400000000)) as [H|_];
      [exfalso; Z.div_mod_to_equations; lia|].
    destruct (Z.ltb_spec 3600 (e mod 86400000000 / 1000000)) as [H|_];
      [exfalso; Z.div_mod_to_equations; lia|].
    destruct (Z.ltb_spec 60 (e mod 86400000000 / 1000000)) as [_|H];
      [|exfalso; Z.div_mod_to_equations; lia].
    exists (e mod 86400000000 / 1000000 / 60).
    split; [Z.div_mod_to_equations; lia|].
    split; [Z.div_mod_to_equations; lia | reflexivity].
  - destruct (Z.ltb_spec 0 (e / 86400000000)) as [H|_];
      [exfalso; Z.div_mod_to_equations; lia|].
    destruct (Z.ltb_spec 3600 (e mod 86400000000 / 1000000)) as [_|H];
      [|exfalso; Z.div_mod_to_equations; lia].
    exists (e mod 86400000000 / 1000000 / 3600).
    split; [Z.div_mod_to_equations; lia|].
    split; [Z.div_mod_to_equations; lia | reflexivity].
  - destruct (Z.ltb_spec 0 (e / 86400000000)) as [_|H];
      [|exfalso; Z.div_mod_to_equations; lia].
    exists (e / 86400000000).
    split; [Z.div_mod_to_equations; lia|]. split; reflexivity.
  - destruct (Z.ltb_spec 0 (e / 86400000000)) as [H|_];
      [exfalso; Z.div_mod_to_equations; lia|].
    destruct (Z.ltb_spec 3600 (e mod 86400000000 / 1000000)) as [_|H];
      [|exfalso; Z.div_mod_to_equations; lia].
    exists (e mod 86400000000 / 1000000 / 3600).
    split; [Z.div_mod_to_equations; lia | reflexivity].
Qed.

Lemma X22_time_ago_ranges_witness :
  time_ago (60 * second) 0 = "Just now"%string
  /\ (exists m, 1 <= m <= 60
                /\ m = (3600 * second - 0) / (60 * second)
                /\ time_ago (3600 * second) 0 = (str m ++ "m ago")%string)
  /\ (exists h, 1 <= h <= 23
                /\ time_ago 0 (30 * second) = (str h ++ "h ago")%string).
Proof.
  split; [|split].
  - apply (proj1 (X22_time_ago_ranges (60 * second) 0)).
    unfold second. lia.
  - apply (proj1 (proj2 (X22_time_ago_ranges (3600 * second) 0))).
    unfold second. lia.
  - apply (proj2 (proj2 (proj2 (proj2 (X22_time_ago_ranges 0 (30 * second)))))).
    unfold second. lia.
Defined.

(** ** The network page *)

Module UserService.


End UserService.

Module NetworkPage.

(** The set the page collects: the other side of each connection it was
    given. *)
Definition connected_user_ids (current : Z) (connections : list Connection.t)
    : set Z :=
  fold_left
    (fun ids conn =>
       if Connection.requester_id conn =? current
       then set_add Z.eq_dec (Connection.addressee_id conn) ids
       else set_add Z.eq_dec (Connection.requester_id conn) ids)
    connections (empty_set Z).




End NetworkPage.






Lemma update_status_miss now k st c :
  Connection.id c <> k -> update_status now k st c = c.
Proof.
  intros H. unfold update_status. apply Z.eqb_neq in H. rewrite H.
  reflexivity.
Qed.








(** * More on responses and pages *)

(** X25. An answer touches one request: whatever its outcome,
    [respond_to_connection(id, ...)] leaves every connection record with
    another key exactly as it was, and adds none. *)
Theorem X25_answer_touches_one_record (cid u : Z) (acc : bool) (s : Session) :
  pending s = [] ->
  List.length (connections (tables (snd (respond_to_connection cid u acc s))))
  = List.length (connections (tables s))
  /\ forall n x,
       nth_error (connections (tables s)) n = Some x ->
       Connection.id x <> cid ->
       nth_error
         (connections (tables (snd (respond_to_connection cid u acc s)))) n
       = Some x.
Proof.
  intros Hidle.
  destruct (respond_cases cid u acc s Hidle)
    as [(_ & Ht & _)|(c & _ & _ & _ & Ht & _)]; rewrite Ht; simpl.
  - auto.
  - split; [apply length_map|].
    intros n x Hx Hne. rewrite nth_error_map, Hx. simpl.
    rewrite update_status_miss by exact Hne. reflexivity.
Qed.

Lemma X25_answer_touches_one_record_witness :
  nth_error
    (connections
       (tables (snd (respond_to_connection 3 4 true network_session)))) 0
  = Some (Connection.mk 1 1 2 ACCEPTED None 0 0).
Proof.
  apply (proj2 (X25_answer_touches_one_record 3 4 true network_session
                  eq_refl) 0%nat (Connection.mk 1 1 2 ACCEPTED None 0 0)).
  - reflexivity.
  - simpl. lia.
Defined.

Lemma firstn_plus {A} (a b : nat) (l : list A) :
  firstn a l ++ firstn b (skipn a l) = firstn (a + b) l.
Proof.
  revert l; induction a as [|a IH]; intros l; simpl; [reflexivity|].
  destruct l as [|x l]; simpl.
  - rewrite firstn_nil. reflexivity.
  - rewrite IH. reflexivity.
Qed.

Lemma pages_tile {A} (sk n m : Z) (l : list A) :
  0 <= sk -> 0 <= n -> 0 <= m ->
  limit n (offset sk l) ++ limit m (offset (sk + n) l)
  = limit (n + m) (offset sk l).
Proof.
  intros Hsk Hn Hm. unfold limit, offset.
  destruct (Z.ltb_spec n 0); [lia|].
  destruct (Z.ltb_spec m 0); [lia|].
  destruct (Z.ltb_spec (n + m) 0); [lia|].
  rewrite (Z2Nat.inj_add sk n), (Z2Nat.inj_add n m) by lia.
  rewrite (Nat.add_comm (Z.to_nat sk)), <- skipn_skipn.
  apply firstn_plus.
Qed.

(** X26. Pages tile: on unchanged tables, the backend answering, the page
    of [n] posts from offset [skip] followed by the page of [m] posts from
    offset [skip + n] is the page of [n + m] posts from offset [skip], for
    [get_feed] and for [get_user_posts]: no post is skipped and none comes
    twice between two consecutive pages. *)
Theorem X26_pages_tile (u sk n m : Z) (s1 s2 s3 : Session) :
  0 <= sk -> 0 <= n -> 0 <= m ->
  tables s2 = tables s1 -> tables s3 = tables s1 ->
  calm 2 s1 -> calm 2 s2 -> calm 2 s3 ->
  (exists l1 l2,
      fst (get_feed u sk n s1) = Ok l1
      /\ fst (get_feed u (sk + n) m s2) = Ok l2
      /\ fst (get_feed u sk (n + m) s3) = Ok (l1 ++ l2))
  /\ (exists l1 l2,
        fst (get_user_posts u sk n s1) = Ok l1
        /\ fst (get_user_posts u (sk + n) m s2) = Ok l2
        /\ fst (get_user_posts u sk (n + m) s3) = Ok (l1 ++ l2)).
Proof.
  intros Hsk Hn Hm H2 H3 C1 C2 C3.
  assert (Hhd : forall x, calm 2 x -> hd false (faults x) = false).
  { intros x Hx. unfold calm in Hx. destruct (faults x) as [|[] f];
      simpl in *; congruence. }
  split; do 2 eexists.
  - split; [apply get_feed_rows; exact C1|].
    split; [apply get_feed_rows; exact C2|].
    rewrite (get_feed_rows u sk (n + m) s3 C3), H2, H3.
    unfold feed_query. rewrite pages_tile by assumption. reflexivity.
  - split; [apply get_user_posts_rows; apply Hhd; exact C1|].
    split; [apply get_user_posts_rows; apply Hhd; exact C2|].
    rewrite (get_user_posts_rows u sk (n + m) s3 (Hhd s3 C3)), H2, H3.
    unfold user_posts_query. rewrite pages_tile by assumption. reflexivity.
Qed.

Lemma X26_pages_tile_witness :
  exists l1 l2,
    fst (get_feed 1 0 3 seven_posts_session) = Ok l1
    /\ fst (get_feed 1 3 4 seven_posts_session) = Ok l2
    /\ fst (get_feed 1 0 7 seven_posts_session) = Ok (l1 ++ l2).
Proof.
  apply (proj1 (X26_pages_tile 1 0 3 4 seven_posts_session
                  seven_posts_session seven_posts_session
                  ltac:(lia) ltac:(lia) ltac:(lia)
                  eq_refl eq_refl eq_refl eq_refl eq_refl)).
Defined.
